(** * Aligned Xception: construction of the network graph

    A shallow embedding of [timm/models/xception_aligned.py].  The builder
    [XceptionAligned.__init__] walks a list of block-config dicts, rewrites
    the stride/dilation of each one so that the cumulative stride never
    exceeds [output_stride], builds an [XceptionModule] per dict and records
    a feature-info table.  Modules are represented by the arguments they were
    constructed with; tensors and the primitive torch operators are kept
    abstract behind the [TensorOps] interface. *)

From Stdlib Require Import ZArith QArith.QArith_base Lia.
From stdpp Require Import base option list strings functions pretty gmap sorting.

Open Scope Z_scope.

(** ** Exceptions and the error monad *)

Inductive exn : Type :=
  | AssertionError
  | AttributeError
  | IndexError.

Inductive result (A : Type) : Type :=
  | Ok (a : A)
  | Raise (e : exn).
Arguments Ok {A} a.
Arguments Raise {A} e.

Global Instance result_ret : MRet result := λ A a, Ok a.
Global Instance result_bind : MBind result := λ A B f m,
  match m with
  | Ok a => f a
  | Raise e => Raise e
  end.

Definition check (e : exn) (b : bool) : result unit :=
  if b then Ok tt else Raise e.

Definition is_ok {A} (r : result A) : bool :=
  match r with Ok _ => true | Raise _ => false end.

(** [for x in xs: acc = body x acc], stopping at the first exception. *)
Fixpoint for_each {A S : Type} (body : A → S → result S) (xs : list A) (s : S)
  : result S :=
  match xs with
  | [] => Ok s
  | x :: xs' => s' ← body x s; for_each body xs' s'
  end.

(** ** Collaborators from [torch.nn] and [timm.models.layers]

    These live outside the file; a constructed layer is the record of the
    arguments of its constructor call.  An argument the call leaves to the
    collaborator's default is [None].

    Two things stay with the collaborators and are not modelled.  Whether a
    constructor accepts its arguments: a run of the code may raise inside a
    collaborator (a convolution over zero channels, an unknown pooling
    type) where the model goes on.  And the parameters a layer draws when
    it is created: a record stands for the architecture of a layer, not for
    its weights.  The model is exact on the file's own code: its checks,
    their order, and what a construction that returns has built. *)

(** Layer classes passed around as [act_layer] and [norm_layer]. *)
Inductive act_kind : Type := ReLU | ActClass (name : string).
Inductive norm_kind : Type := BatchNorm2d | NormClass (name : string).

(** A keyword dict such as [norm_kwargs]. *)
Definition kwargs : Type := list (string * Q).

Record act : Type := mk_act { act_cls : act_kind; act_inplace : bool }.
Record norm : Type := mk_norm
  { norm_cls : norm_kind; norm_chs : Z; norm_kw : kwargs }.

(** [create_conv2d(in_chs, out_chs, kernel_size, stride=, padding=, dilation=,
    depthwise=)]. *)
Record conv2d : Type := mk_conv2d
  { conv_in : Z; conv_out : Z; conv_kernel : Z;
    conv_stride : option Z; conv_padding : option string;
    conv_dilation : option Z; conv_depthwise : option bool }.

(** [ConvBnAct(in, out, kernel_size, stride=, norm_layer=, norm_kwargs=,
    act_layer=)]; [cba_act = None] is [act_layer=None]. *)
Record conv_bn_act : Type := mk_conv_bn_act
  { cba_in : Z; cba_out : Z; cba_kernel : Z; cba_stride : Z;
    cba_norm : norm_kind; cba_norm_kw : kwargs; cba_act : option act_kind }.

Record pool2d : Type := mk_pool2d { pool_type : string }.

(** [nn.Linear(in_features, out_features, bias=)] or [nn.Identity()]. *)
Inductive fc_layer : Type :=
  | Linear (in_features out_features : Z) (bias : bool)
  | Identity.

(** [nn.Sequential] as the ordered list of its named children.
    [add_module] replaces the child of that name when there is one and
    appends otherwise. *)
Definition Sequential (A : Type) : Type := list (string * A).

Fixpoint add_module {A} (name : string) (m : A) (s : Sequential A)
  : Sequential A :=
  match s with
  | [] => [(name, m)]
  | (n, m') :: s' =>
      if decide (n = name) then (n, m) :: s' else (n, m') :: add_module name m s'
  end.

(** The primitive operators on tensors. *)
Class TensorOps (tensor : Type) : Type := {
  conv2d_fwd : conv2d → tensor → tensor;
  norm_fwd : norm → tensor → tensor;
  act_fwd : act → tensor → tensor;
  conv_bn_act_fwd : conv_bn_act → tensor → tensor;
  tensor_add : tensor → tensor → tensor;
  pool2d_fwd : pool2d → tensor → tensor;
  flatten : Z → tensor → tensor;
  F_dropout : tensor → Q → bool → tensor;
  linear_fwd : Z → Z → bool → tensor → tensor;
}.

(** [nn.Sequential.forward]: feed the input through the children in order. *)
Definition Sequential_forward {A tensor} (fwd : A → tensor → tensor)
    (s : Sequential A) (x : tensor) : tensor :=
  foldl (λ x nm, fwd nm.2 x) x s.

Definition kwargs_or_empty (kw : option kwargs) : kwargs := default [] kw.

(** ** SeparableConv2d *)

Module SeparableConv2d.

Record t : Type := mk
  { kernel_size : Z; dilation : Z;
    conv_dw : conv2d; bn_dw : norm; act_dw : option act;
    conv_pw : conv2d; bn_pw : norm; act_pw : option act }.

Definition init (inplanes planes kernel_size stride dilation : Z)
    (padding : string) (act_layer : option act_kind)
    (norm_layer : norm_kind) (norm_kwargs : option kwargs) : t :=
  let norm_kwargs := kwargs_or_empty norm_kwargs in
  {| kernel_size := kernel_size;
     dilation := dilation;
     (* depthwise convolution *)
     conv_dw := mk_conv2d inplanes inplanes kernel_size (Some stride)
                  (Some padding) (Some dilation) (Some true);
     bn_dw := mk_norm norm_layer inplanes norm_kwargs;
     act_dw := (λ a, mk_act a true) <$> act_layer;
     (* pointwise convolution *)
     conv_pw := mk_conv2d inplanes planes 1 None None None None;
     bn_pw := mk_norm norm_layer planes norm_kwargs;
     act_pw := (λ a, mk_act a true) <$> act_layer |}.

Definition forward `{TensorOps tensor} (self : t) (x : tensor) : tensor :=
  let x := conv2d_fwd (conv_dw self) x in
  let x := norm_fwd (bn_dw self) x in
  let x := match act_dw self with Some a => act_fwd a x | None => x end in
  let x := conv2d_fwd (conv_pw self) x in
  let x := norm_fwd (bn_pw self) x in
  let x := match act_pw self with Some a => act_fwd a x | None => x end in
  x.

End SeparableConv2d.

(** ** XceptionModule *)

(** The [out_chs] argument: an int, or a list/tuple of ints. *)
Inductive chs : Type :=
  | ChsInt (c : Z)
  | ChsSeq (cs : list Z).

(** [xs[i]] for [0 <= i]. *)
Definition index {A} (xs : list A) (i : nat) : result A :=
  match xs !! i with Some x => Ok x | None => Raise IndexError end.

(** [xs[-1]]. *)
Definition index_last {A} (xs : list A) : result A :=
  match last xs with Some x => Ok x | None => Raise IndexError end.

Module XceptionModule.

Inductive layer : Type :=
  | LAct (a : act)
  | LConv (c : SeparableConv2d.t).

Record t : Type := mk
  { in_channels : Z; out_channels : Z; no_skip : bool;
    shortcut : option conv_bn_act;
    stack : Sequential layer }.

(** Lines 84-87: a list or tuple must have three entries, an int is
    repeated three times. *)
Definition normalize_out_chs (out_chs : chs) : result (list Z) :=
  match out_chs with
  | ChsSeq cs => _ ← check AssertionError (bool_decide (length cs = 3%nat)); Ok cs
  | ChsInt c => Ok (replicate 3 c)
  end.

(** One iteration of the loop of lines 100-106; the loop carries the
    rebound [in_chs] and the stack built so far. *)
Definition stack_body (out_chs : list Z) (stride dilation : Z)
    (pad_type : string) (start_with_relu : bool)
    (separable_act_layer : option act_kind)
    (norm_layer : norm_kind) (norm_kwargs : option kwargs)
    (i : nat) (acc : Z * Sequential layer) : result (Z * Sequential layer) :=
  let '(in_chs, stack) := acc in
  let stack :=
    if start_with_relu
    then add_module ("act" +:+ pretty (i + 1)%nat)
           (LAct (mk_act ReLU (bool_decide (0 < i)%nat))) stack
    else stack in
  o ← index out_chs i;
  let stack :=
    add_module ("conv" +:+ pretty (i + 1)%nat)
      (LConv (SeparableConv2d.init in_chs o 3
                (if decide (i = 2%nat) then stride else 1) dilation pad_type
                separable_act_layer norm_layer norm_kwargs)) stack in
  Ok (o, stack).

Definition init (in_chs : Z) (out_chs : chs) (stride dilation : Z)
    (pad_type : string) (start_with_relu no_skip : bool)
    (act_layer : act_kind) (norm_layer : norm_kind)
    (norm_kwargs : option kwargs) : result t :=
  let norm_kwargs := kwargs_or_empty norm_kwargs in
  out_chs ← normalize_out_chs out_chs;
  let self_in_channels := in_chs in
  self_out_channels ← index_last out_chs;
  let self_shortcut :=
    if negb no_skip &&
       (negb (self_out_channels =? self_in_channels) || negb (stride =? 1))
    then Some (mk_conv_bn_act in_chs self_out_channels 1 stride
                 norm_layer norm_kwargs None)
    else None in
  let separable_act_layer :=
    if start_with_relu then None else Some act_layer in
  '(_, self_stack) ←
    for_each (stack_body out_chs stride dilation pad_type start_with_relu
                separable_act_layer norm_layer (Some norm_kwargs))
      (seq 0 3) (in_chs, []);
  Ok {| in_channels := self_in_channels;
        out_channels := self_out_channels;
        no_skip := no_skip;
        shortcut := self_shortcut;
        stack := self_stack |}.

Definition layer_forward `{TensorOps tensor} (l : layer) (x : tensor)
  : tensor :=
  match l with
  | LAct a => act_fwd a x
  | LConv c => SeparableConv2d.forward c x
  end.

Definition forward `{TensorOps tensor} (self : t) (x : tensor) : tensor :=
  let skip := x in
  let x := Sequential_forward layer_forward (stack self) x in
  let skip :=
    match shortcut self with
    | Some sc => conv_bn_act_fwd sc skip
    | None => skip
    end in
  let x := if negb (no_skip self) then tensor_add x skip else x in
  x.

End XceptionModule.

(** ** ClassifierHead *)

Module ClassifierHead.

(** [training] is the flag every [nn.Module] carries; it is [True] after
    construction. *)
Record t : Type := mk
  { drop_rate : Q; global_pool : pool2d; fc : fc_layer; training : bool }.

Definition init (in_chs num_classes : Z) (pool_type : string)
    (drop_rate : Q) : t :=
  {| drop_rate := drop_rate;
     global_pool := mk_pool2d pool_type;
     fc := if num_classes >? 0 then Linear in_chs num_classes true
           else Identity;
     training := true |}.

Definition fc_forward `{TensorOps tensor} (l : fc_layer) (x : tensor)
  : tensor :=
  match l with
  | Linear i o b => linear_fwd i o b x
  | Identity => x
  end.

(** The pooled and flattened features, [self.global_pool(x).flatten(1)]. *)
Definition pooled `{TensorOps tensor} (self : t) (x : tensor) : tensor :=
  flatten 1 (pool2d_fwd (global_pool self) x).

(** Truth value of a float: anything but zero. *)
Definition truthy (q : Q) : bool := negb (Qeq_bool q 0).

Definition forward `{TensorOps tensor} (self : t) (x : tensor) : tensor :=
  let x := pooled self x in
  let x :=
    if truthy (drop_rate self)
    then F_dropout x (drop_rate self) (training self)
    else x in
  let x := fc_forward (fc self) x in
  x.

End ClassifierHead.

(** ** Block configs and the object store

    [block_cfg] is a list of references to dicts.  The builder writes to the
    dicts it is handed ([b['dilation'] = ...], [b['stride'] = 1]) and the
    presets put one dict at several positions of the list
    ([[dict(...)] * 8]), so the dicts live in a store and the list holds
    their locations. *)

Module BlockCfg.

(** The keys a block dict may hold.  [in_chs], [out_chs] and [stride] are
    always there; the others are keyword arguments of [XceptionModule]
    with a default and may be absent. *)
Record t : Type := mk
  { in_chs : Z; out_chs : chs; stride : Z;
    dilation : option Z; pad_type : option string;
    start_with_relu : option bool; no_skip : option bool }.

(** [dict(in_chs=i, out_chs=o, stride=s)]. *)
Definition dict (i : Z) (o : chs) (s : Z) : t :=
  mk i o s None None None None.

(** [b['dilation'] = d] and [b['stride'] = s]. *)
Definition set_dilation (d : Z) (b : t) : t :=
  mk (in_chs b) (out_chs b) (stride b) (Some d) (pad_type b)
     (start_with_relu b) (no_skip b).
Definition set_stride (s : Z) (b : t) : t :=
  mk (in_chs b) (out_chs b) s (dilation b) (pad_type b)
     (start_with_relu b) (no_skip b).

End BlockCfg.

Definition loc : Type := nat.
Abbreviation store := (loc → BlockCfg.t) (only parsing).

(** ** XceptionAligned *)

Record feature_info_entry : Type := mk_feature_info
  { num_chs : Z; reduction : Z; module : string }.

Module XceptionAligned.

Record t : Type := mk
  { num_classes : Z; drop_rate : Q;
    stem : Sequential conv_bn_act;
    feature_info : list feature_info_entry;
    blocks : Sequential XceptionModule.t;
    num_features : Z;
    head : ClassifierHead.t }.

(** The running [(curr_stride, curr_dilation)] pair. *)
Record planner : Type := mk_planner
  { curr_stride : Z; curr_dilation : Z }.

(** Lines 161-170: the stride/dilation rewriting of one block.  Returns the
    [feature_extract] flag, the new running pair and the store after the
    writes to the dict at [b]. *)
Definition plan_block (output_stride : Z) (b : loc) (p : planner)
    (σ : store) : bool * planner * store :=
  let feature_extract := false in
  let σ := <[b := BlockCfg.set_dilation (curr_dilation p) (σ b)]> σ in
  if BlockCfg.stride (σ b) >? 1 then
    let feature_extract := true in
    let next_stride := curr_stride p * BlockCfg.stride (σ b) in
    if next_stride >? output_stride then
      let curr_dilation' := curr_dilation p * BlockCfg.stride (σ b) in
      let σ := <[b := BlockCfg.set_stride 1 (σ b)]> σ in
      (feature_extract, mk_planner (curr_stride p) curr_dilation', σ)
    else
      (feature_extract, mk_planner next_stride (curr_dilation p), σ)
  else (feature_extract, p, σ).

(** The call of [XceptionModule] with the keys of the dict [b] and of
    [xtra_args] as keyword arguments; an absent key takes the default of
    the signature. *)
Definition XceptionModule_of (b : BlockCfg.t) (act_layer : act_kind)
    (norm_layer : norm_kind) (norm_kwargs : kwargs)
  : result XceptionModule.t :=
  XceptionModule.init (BlockCfg.in_chs b) (BlockCfg.out_chs b)
    (BlockCfg.stride b) (default 1 (BlockCfg.dilation b))
    (default EmptyString (BlockCfg.pad_type b))
    (default true (BlockCfg.start_with_relu b))
    (default false (BlockCfg.no_skip b))
    act_layer norm_layer (Some norm_kwargs).

(** What the loop of lines 160-175 carries from one block to the next.
    [l_num_features] is [None] as long as [self.num_features] has not
    been assigned. *)
Record loop_state : Type := mk_loop
  { l_planner : planner;
    l_store : store;
    l_blocks : Sequential XceptionModule.t;
    l_num_features : option Z;
    l_feature_info : list feature_info_entry }.

Definition loop_body (output_stride : Z) (act_layer : act_kind)
    (norm_layer : norm_kind) (norm_kwargs : kwargs)
    (ib : nat * loc) (s : loop_state) : result loop_state :=
  let '(i, b) := ib in
  let '(feature_extract, p, σ) :=
    plan_block output_stride b (l_planner s) (l_store s) in
  m ← XceptionModule_of (σ b) act_layer norm_layer norm_kwargs;
  let blocks := add_module (pretty i) m (l_blocks s) in
  last_block ← index_last blocks.*2;
  let num_features := XceptionModule.out_channels last_block in
  let feature_info :=
    if feature_extract
    then l_feature_info s ++
         [mk_feature_info num_features (curr_stride p)
            ("blocks." +:+ pretty i +:+ ".stack.act2")]
    else l_feature_info s in
  Ok (mk_loop p σ blocks (Some num_features) feature_info).

(** [enumerate(xs)]. *)
Definition enumerate {A} (xs : list A) : list (nat * A) :=
  zip (seq 0 (length xs)) xs.

(** [self.num_features], an [AttributeError] when it was never assigned. *)
Definition get_attr {A} (a : option A) : result A :=
  match a with Some x => Ok x | None => Raise AttributeError end.

Definition stem_of (in_chans : Z) (act_layer : act_kind)
    (norm_layer : norm_kind) (norm_kwargs : kwargs)
  : Sequential conv_bn_act :=
  [ ("0", mk_conv_bn_act in_chans 32 3 2 norm_layer norm_kwargs (Some act_layer));
    ("1", mk_conv_bn_act 32 64 3 1 norm_layer norm_kwargs (Some act_layer)) ].

(** Lines 155-156: the stem has halved the resolution once. *)
Definition planner_init : planner :=
  {| curr_dilation := 1; curr_stride := 2 |}.

(** [XceptionAligned.__init__].  Returns the network and the store, whose
    dicts the construction has written to. *)
Definition init (block_cfg : list loc) (σ : store)
    (num_classes in_chans output_stride : Z)
    (act_layer : act_kind) (norm_layer : norm_kind)
    (norm_kwargs : option kwargs) (drop_rate : Q) (global_pool : string)
  : result (t * store) :=
  _ ← check AssertionError
        (bool_decide (output_stride ∈ [8; 16; 32]));
  let norm_kwargs := kwargs_or_empty norm_kwargs in
  let self_stem := stem_of in_chans act_layer norm_layer norm_kwargs in
  let p := planner_init in
  let self_feature_info := [mk_feature_info 64 (curr_stride p) "stem.1"] in
  s ← for_each (loop_body output_stride act_layer norm_layer norm_kwargs)
        (enumerate block_cfg)
        (mk_loop p σ [] None self_feature_info);
  num_features ← get_attr (l_num_features s);
  let self_feature_info :=
    l_feature_info s ++
    [mk_feature_info num_features (curr_stride (l_planner s))
       ("blocks." +:+ pretty (Z.of_nat (length (l_blocks s)) - 1))] in
  let self_head :=
    ClassifierHead.init num_features num_classes global_pool drop_rate in
  Ok ({| num_classes := num_classes;
         drop_rate := drop_rate;
         stem := self_stem;
         feature_info := self_feature_info;
         blocks := l_blocks s;
         num_features := num_features;
         head := self_head |}, l_store s).

Definition get_classifier (self : t) : fc_layer :=
  ClassifierHead.fc (head self).

(** [self.head = h]. *)
Definition set_head (self : t) (h : ClassifierHead.t) : t :=
  {| num_classes := num_classes self;
     drop_rate := drop_rate self;
     stem := stem self;
     feature_info := feature_info self;
     blocks := blocks self;
     num_features := num_features self;
     head := h |}.

Definition reset_classifier (self : t) (num_classes : Z)
    (global_pool : string) : t :=
  set_head self
    (ClassifierHead.init (num_features self) num_classes global_pool
       (drop_rate self)).

Definition forward_features `{TensorOps tensor} (self : t) (x : tensor)
  : tensor :=
  let x := Sequential_forward conv_bn_act_fwd (stem self) x in
  let x := Sequential_forward XceptionModule.forward (blocks self) x in
  x.

Definition forward `{TensorOps tensor} (self : t) (x : tensor) : tensor :=
  let x := forward_features self x in
  let x := ClassifierHead.forward (head self) x in
  x.

End XceptionAligned.

(** ** The presets *)

(** A store holding the dicts [ds] at locations [0, 1, ...]. *)
Definition alloc (ds : list BlockCfg.t) : store :=
  λ l, default (BlockCfg.dict 0 (ChsInt 0) 1) (ds !! l).

Definition preset_norm_kwargs : kwargs :=
  [("eps", (1 # 1000)%Q); ("momentum", (1 # 10)%Q)].

(** The exit flow shared by the three presets. *)
Definition exit_down : BlockCfg.t :=
  BlockCfg.dict 728 (ChsSeq [728; 1024; 1024]) 2.
Definition exit_last : BlockCfg.t :=
  BlockCfg.mk 1024 (ChsSeq [1536; 1536; 2048]) 1 None None
    (Some false) (Some true).

(** [xception41]: the middle-flow dict is one object listed eight times. *)
Definition xception41_dicts : list BlockCfg.t :=
  [ BlockCfg.dict 64 (ChsInt 128) 2;
    BlockCfg.dict 128 (ChsInt 256) 2;
    BlockCfg.dict 256 (ChsInt 728) 2;
    BlockCfg.dict 728 (ChsInt 728) 1;
    exit_down;
    exit_last ].
Definition xception41_block_cfg : list loc :=
  [0; 1; 2]%nat ++ replicate 8 3%nat ++ [4; 5]%nat.

Definition xception41 (num_classes in_chans output_stride : Z)
    (drop_rate : Q) (global_pool : string)
  : result (XceptionAligned.t * store) :=
  XceptionAligned.init xception41_block_cfg (alloc xception41_dicts)
    num_classes in_chans output_stride ReLU BatchNorm2d
    (Some preset_norm_kwargs) drop_rate global_pool.

(** ** Observing the planner

    The planner part of the loop on its own: it raises nothing, so the
    running pair is defined for every prefix of [block_cfg], whether or not
    a later module construction fails. *)

Definition plan_step (output_stride : Z) (ps : XceptionAligned.planner * store)
    (b : loc) : XceptionAligned.planner * store :=
  let '(_, p, σ) := XceptionAligned.plan_block output_stride b ps.1 ps.2 in
  (p, σ).

Definition plan_run (output_stride : Z) (block_cfg : list loc)
    (ps : XceptionAligned.planner * store) : XceptionAligned.planner * store :=
  foldl (plan_step output_stride) ps block_cfg.

(** What happened to one block: the stride its dict declared in the input
    store, the stride found in the dict when the block was reached, the
    stride and dilation left in the dict for the module, and the
    [feature_extract] flag. *)
Record outcome : Type := mk_outcome
  { declared : Z; found : Z; effective : Z;
    effective_dilation : option Z; flagged : bool }.

(** The stride was absorbed when the planner rewrote it. *)
Definition absorbed (o : outcome) : bool := negb (found o =? effective o).

Fixpoint outcomes (output_stride : Z) (σ0 : store) (block_cfg : list loc)
    (p : XceptionAligned.planner) (σ : store) : list outcome :=
  match block_cfg with
  | [] => []
  | b :: block_cfg' =>
      let '(f, p', σ') := XceptionAligned.plan_block output_stride b p σ in
      mk_outcome (BlockCfg.stride (σ0 b)) (BlockCfg.stride (σ b))
        (BlockCfg.stride (σ' b)) (BlockCfg.dilation (σ' b)) f
      :: outcomes output_stride σ0 block_cfg' p' σ'
  end.

(** Product of a list of integers. *)
Definition product (zs : list Z) : Z := foldr Z.mul 1 zs.

Definition absorbed_strides (os : list outcome) : list Z :=
  declared <$> filter (λ o, absorbed o = true) os.

(** A block counts as a stage boundary when its stride stayed above one or
    was absorbed into the dilation. *)
Definition boundary (o : outcome) : bool := (effective o >? 1) || absorbed o.

Definition chs_valid (o : chs) : bool :=
  match o with
  | ChsInt _ => true
  | ChsSeq cs => bool_decide (length cs = 3%nat)
  end.

(** The separable convolutions of a stack, in order. *)
Definition convs (s : Sequential XceptionModule.layer)
  : list SeparableConv2d.t :=
  omap (λ nl, match nl.2 with
              | XceptionModule.LConv c => Some c
              | XceptionModule.LAct _ => None
              end) s.

(** Channels and stride of one separable-convolution unit: it enters through
    the depthwise convolution, which carries the stride, and leaves through
    the pointwise one. *)
Definition unit_in (c : SeparableConv2d.t) : Z := conv_in (SeparableConv2d.conv_dw c).
Definition unit_out (c : SeparableConv2d.t) : Z := conv_out (SeparableConv2d.conv_pw c).
Definition unit_stride (c : SeparableConv2d.t) : option Z :=
  conv_stride (SeparableConv2d.conv_dw c).

(** Stride and dilation of the three units of a block. *)
Definition unit_strides (m : XceptionModule.t) : list (option Z) :=
  unit_stride <$> convs (XceptionModule.stack m).
Definition unit_dilations (m : XceptionModule.t) : list Z :=
  SeparableConv2d.dilation <$> convs (XceptionModule.stack m).

(** A stride in a dict is only ever overwritten with 1. *)
Definition strides_from (σ0 σ : store) : Prop :=
  ∀ l, BlockCfg.stride (σ l) = BlockCfg.stride (σ0 l) ∨
       BlockCfg.stride (σ l) = 1.

(** The module [XceptionModule.init] builds from a triple of channels. *)
Definition built_module (in_chs o0 o1 o2 stride dilation : Z)
    (pad_type : string) (start_with_relu no_skip : bool)
    (act_layer : act_kind) (norm_layer : norm_kind) (norm_kwargs : kwargs)
  : XceptionModule.t :=
  let sep := if start_with_relu then None else Some act_layer in
  let conv i o s :=
    XceptionModule.LConv
      (SeparableConv2d.init i o 3 s dilation pad_type sep norm_layer
         (Some norm_kwargs)) in
  let relu inplace := XceptionModule.LAct (mk_act ReLU inplace) in
  {| XceptionModule.in_channels := in_chs;
     XceptionModule.out_channels := o2;
     XceptionModule.no_skip := no_skip;
     XceptionModule.shortcut :=
       if negb no_skip && (negb (o2 =? in_chs) || negb (stride =? 1))
       then Some (mk_conv_bn_act in_chs o2 1 stride norm_layer norm_kwargs None)
       else None;
     XceptionModule.stack :=
       if start_with_relu
       then [("act1", relu false); ("conv1", conv in_chs o0 1);
             ("act2", relu true); ("conv2", conv o0 o1 1);
             ("act3", relu true); ("conv3", conv o1 o2 stride)]
       else [("conv1", conv in_chs o0 1); ("conv2", conv o0 o1 1);
             ("conv3", conv o1 o2 stride)] |}.

(** The state in which the builder enters its loop (lines 155-159). *)
Definition loop_start (σ : store) : XceptionAligned.loop_state :=
  XceptionAligned.mk_loop XceptionAligned.planner_init σ [] None
    [mk_feature_info 64 2 "stem.1"].

(** ** A concrete reading of the tensor operators

    Vectors of rationals.  Dropout in training mode draws a mask: a kept
    entry is scaled by [1 / (1 - p)], a dropped one becomes zero, and at
    [p >= 1] everything is dropped; the mask is a parameter here.  The other
    operators are stand-ins: only their types matter where this reading is
    used. *)

Definition mask_dropout (mask : nat → bool) (x : list Q) (p : Q)
    (training : bool) : list Q :=
  if training then
    if Qle_bool 1 p then (λ _, 0%Q) <$> x
    else imap (λ i v, if mask i then Qdiv v (1 - p)%Q else 0%Q) x
  else x.

Definition toy_ops (mask : nat → bool) : TensorOps (list Q) := {|
  conv2d_fwd _ x := x;
  norm_fwd _ x := x;
  act_fwd _ x := (λ v, if Qle_bool 0 v then v else 0%Q) <$> x;
  conv_bn_act_fwd _ x := x;
  tensor_add x y := zip_with Qplus x y;
  pool2d_fwd _ x := x;
  flatten _ x := x;
  F_dropout := mask_dropout mask;
  linear_fwd _ o _ x := replicate (Z.to_nat o) (foldr Qplus 0%Q x);
|}.

(** The reading with the mask that keeps every entry. *)
Global Instance keep_all_ops : TensorOps (list Q) := toy_ops (λ _, true).

(** ** The other presets *)

(** [xception65]: as [xception41], the middle-flow dict listed sixteen
    times. *)
Definition xception65_dicts : list BlockCfg.t :=
  [ BlockCfg.dict 64 (ChsInt 128) 2;
    BlockCfg.dict 128 (ChsInt 256) 2;
    BlockCfg.dict 256 (ChsInt 728) 2;
    BlockCfg.dict 728 (ChsInt 728) 1;
    exit_down;
    exit_last ].
Definition xception65_block_cfg : list loc :=
  [0; 1; 2]%nat ++ replicate 16 3%nat ++ [4; 5]%nat.

(** [xception71]: five entry-flow dicts. *)
Definition xception71_dicts : list BlockCfg.t :=
  [ BlockCfg.dict 64 (ChsInt 128) 2;
    BlockCfg.dict 128 (ChsInt 256) 1;
    BlockCfg.dict 256 (ChsInt 256) 2;
    BlockCfg.dict 256 (ChsInt 728) 1;
    BlockCfg.dict 728 (ChsInt 728) 2;
    BlockCfg.dict 728 (ChsInt 728) 1;
    exit_down;
    exit_last ].
Definition xception71_block_cfg : list loc :=
  [0; 1; 2; 3; 4]%nat ++ replicate 16 5%nat ++ [6; 7]%nat.

(** ** The model factory: [_cfg], [default_cfgs], [_xception] and the
    registered entry points *)

Module Factory.

(** Values held by a default-config dict.  [VConst] names a constant
    imported from [timm.data]. *)
Inductive cfg_value : Type :=
  | VStr (s : string)
  | VInt (z : Z)
  | VTuple (zs : list Z)
  | VFloat (q : Q)
  | VConst (name : string).

(** The dict literal of [_cfg]: the keys of [kwargs] win. *)
Definition _cfg (url : string) (kwargs : gmap string cfg_value)
  : gmap string cfg_value :=
  kwargs ∪
  list_to_map
    [ ("url", VStr url);
      ("num_classes", VInt 1000);
      ("input_size", VTuple [3; 299; 299]);
      ("pool_size", VTuple [10; 10]);
      ("crop_pct", VFloat (903 # 1000)%Q);
      ("interpolation", VStr "bicubic");
      ("mean", VConst "IMAGENET_INCEPTION_MEAN");
      ("std", VConst "IMAGENET_INCEPTION_STD");
      ("first_conv", VStr "stem.0");
      ("classifier", VStr "head.fc") ].

Definition default_cfgs : gmap string (gmap string cfg_value) :=
  list_to_map
    [ ("xception41", _cfg EmptyString ∅);
      ("xception65", _cfg EmptyString ∅);
      ("xception71", _cfg EmptyString ∅) ].

(** The keyword arguments a caller may give to an entry point; [None] is an
    absent key. *)
Record user_kwargs : Type := mk_user_kwargs
  { kw_features_only : option bool;
    kw_out_indices : option (list Z);
    kw_num_classes : option Z;
    kw_in_chans : option Z;
    kw_output_stride : option Z;
    kw_act_layer : option act_kind;
    kw_norm_layer : option norm_kind;
    kw_drop_rate : option Q;
    kw_global_pool : option string }.

(** The [kwargs] of [_xception]: what the entry point adds, and the
    caller's. *)
Record model_args : Type := mk_model_args
  { block_cfg : list loc;
    norm_kwargs : option kwargs;
    user : user_kwargs }.

(** [kwargs.pop(key)] for the three keys [_xception] pops. *)
Definition pop_features_only (u : user_kwargs) : user_kwargs :=
  mk_user_kwargs None (kw_out_indices u) (kw_num_classes u) (kw_in_chans u)
    (kw_output_stride u) (kw_act_layer u) (kw_norm_layer u) (kw_drop_rate u)
    (kw_global_pool u).
Definition pop_num_classes (u : user_kwargs) : user_kwargs :=
  mk_user_kwargs (kw_features_only u) (kw_out_indices u) None (kw_in_chans u)
    (kw_output_stride u) (kw_act_layer u) (kw_norm_layer u) (kw_drop_rate u)
    (kw_global_pool u).
Definition pop_out_indices (u : user_kwargs) : user_kwargs :=
  mk_user_kwargs (kw_features_only u) None (kw_num_classes u) (kw_in_chans u)
    (kw_output_stride u) (kw_act_layer u) (kw_norm_layer u) (kw_drop_rate u)
    (kw_global_pool u).

(** What [_xception] can raise: an exception of the construction, the
    [TypeError] of a keyword [XceptionAligned] does not take, the [KeyError]
    of a variant without default config. *)
Inductive factory_exn : Type :=
  | InitError (e : exn)
  | TypeError (keyword : string)
  | KeyError (key : string).

(** The calls to the collaborators [load_pretrained] and [FeatureNet] are
    recorded with the arguments they are given. *)
Record load_call : Type := mk_load_call
  { load_num_classes : Z; load_in_chans : Z; load_strict : bool }.

Record built : Type := mk_built
  { model : XceptionAligned.t;
    default_cfg : gmap string cfg_value;
    load_pretrained : option load_call;
    feature_net : option (list Z) }.

(** The call of [XceptionAligned] with the keys left in [kwargs]. *)
Definition construct (a : model_args) (σ : store)
  : factory_exn + (XceptionAligned.t * store) :=
  let u := user a in
  match kw_features_only u, kw_out_indices u with
  | Some _, _ => inl (TypeError "features_only")
  | None, Some _ => inl (TypeError "out_indices")
  | None, None =>
      match XceptionAligned.init (block_cfg a) σ
              (default 1000 (kw_num_classes u))
              (default 3 (kw_in_chans u))
              (default 32 (kw_output_stride u))
              (default ReLU (kw_act_layer u))
              (default BatchNorm2d (kw_norm_layer u))
              (norm_kwargs a)
              (default 0%Q (kw_drop_rate u))
              (default "avg" (kw_global_pool u)) with
      | Ok r => inr r
      | Raise e => inl (InitError e)
      end
  end.

Definition _xception (variant : string) (pretrained : bool) (a : model_args)
    (σ : store) : factory_exn + (built * store) :=
  let features := false in
  let out_indices := None in
  let u := user a in
  let features_only := default false (kw_features_only u) in
  let u := pop_features_only u in
  let '(features, out_indices, u) :=
    if features_only
    then (true, Some (default [0; 1; 2; 3; 4] (kw_out_indices u)),
          pop_out_indices (pop_num_classes u))
    else (features, out_indices, u) in
  match construct (mk_model_args (block_cfg a) (norm_kwargs a) u) σ with
  | inl e => inl e
  | inr (model, σ') =>
      match default_cfgs !! variant with
      | None => inl (KeyError variant)
      | Some cfg =>
          let load :=
            if pretrained
            then Some (mk_load_call (default 0 (kw_num_classes u))
                         (default 3 (kw_in_chans u)) (negb features))
            else None in
          inr (mk_built model cfg load
                 (if features then out_indices else None), σ')
      end
  end.

(** The entry points: fresh dicts, the preset [norm_kwargs], the caller's
    keywords. *)
Definition xception41 (pretrained : bool) (kwargs : user_kwargs)
  : factory_exn + (built * store) :=
  _xception "xception41" pretrained
    (mk_model_args xception41_block_cfg (Some preset_norm_kwargs) kwargs)
    (alloc xception41_dicts).

Definition xception65 (pretrained : bool) (kwargs : user_kwargs)
  : factory_exn + (built * store) :=
  _xception "xception65" pretrained
    (mk_model_args xception65_block_cfg (Some preset_norm_kwargs) kwargs)
    (alloc xception65_dicts).

Definition xception71 (pretrained : bool) (kwargs : user_kwargs)
  : factory_exn + (built * store) :=
  _xception "xception71" pretrained
    (mk_model_args xception71_block_cfg (Some preset_norm_kwargs) kwargs)
    (alloc xception71_dicts).

End Factory.

(** ** Further observations of a build *)

(** The dict handed to [XceptionModule] for each block, as the planner has
    left it at that moment. *)
Fixpoint module_args (output_stride : Z) (block_cfg : list loc)
    (p : XceptionAligned.planner) (σ : store) : list BlockCfg.t :=
  match block_cfg with
  | [] => []
  | b :: block_cfg' =>
      let '(_, p', σ') := XceptionAligned.plan_block output_stride b p σ in
      σ' b :: module_args output_stride block_cfg' p' σ'
  end.

(** The stride of a built block: that of its last unit. *)
Definition block_stride (m : XceptionModule.t) : Z :=
  default 1 (mjoin (last (unit_strides m))).

(** The channels a dict ends on. *)
Definition chs_last (o : chs) : option Z :=
  match o with
  | ChsInt c => Some c
  | ChsSeq cs => last cs
  end.

(** The dicts of a list chain: each takes the channels the one before ends
    on, the first takes [prev]. *)
Fixpoint chained (σ : store) (prev : Z) (block_cfg : list loc) : bool :=
  match block_cfg with
  | [] => true
  | b :: block_cfg' =>
      (BlockCfg.in_chs (σ b) =? prev) &&
      match chs_last (BlockCfg.out_chs (σ b)) with
      | Some o => chained σ o block_cfg'
      | None => false
      end
  end.

(** The stand-alone activations of a stack, in order. *)
Definition acts (s : Sequential XceptionModule.layer) : list act :=
  omap (λ nl, match nl.2 with
              | XceptionModule.LAct a => Some a
              | XceptionModule.LConv _ => None
              end) s.

(** What the network of an entry point looks like: the keywords it was
    given name a valid target [output_stride] (32 when left out) and give
    [out_indices] only with a true [features_only]; the network has [n]
    blocks and 2048 features, ends on a reduction equal to the target, and
    carries the default config. *)
Definition preset_facts (n : nat) (kwargs : Factory.user_kwargs)
    (r : Factory.built) : Prop :=
  let target := default 32 (Factory.kw_output_stride kwargs) in
  target ∈ [8; 16; 32] ∧
  (default false (Factory.kw_features_only kwargs) = true ∨
   Factory.kw_out_indices kwargs = None) ∧
  length (XceptionAligned.blocks (Factory.model r)) = n ∧
  XceptionAligned.num_features (Factory.model r) = 2048 ∧
  reduction <$> last (XceptionAligned.feature_info (Factory.model r)) =
    Some target ∧
  Factory.default_cfg r = Factory._cfg EmptyString ∅.

(** * Properties *)

(** ** The planner *)

Import XceptionAligned.

(** The three branches of [plan_block], with the reads of the dict resolved. *)
Lemma plan_block_cases (output_stride : Z) (b : loc) (p : planner) (σ : store) :
  let s := BlockCfg.stride (σ b) in
  let σ1 := <[b := BlockCfg.set_dilation (curr_dilation p) (σ b)]> σ in
  plan_block output_stride b p σ =
    if s >? 1 then
      if curr_stride p * s >? output_stride
      then (true, mk_planner (curr_stride p) (curr_dilation p * s),
            <[b := BlockCfg.set_stride 1 (σ1 b)]> σ1)
      else (true, mk_planner (curr_stride p * s) (curr_dilation p), σ1)
    else (false, p, σ1).
Proof.
  intros s σ1. unfold plan_block. fold σ1.
  assert (Hs : BlockCfg.stride (σ1 b) = s).
  { unfold σ1. by rewrite fn_lookup_insert. }
  rewrite Hs. reflexivity.
Qed.

(** The planner writes to the dict at [b] only. *)
Lemma plan_block_other (output_stride : Z) (b l : loc) (p : planner) (σ : store) :
  l ≠ b → (plan_block output_stride b p σ).2 l = σ l.
Proof.
  intros Hne. rewrite plan_block_cases.
  repeat case_match; simpl; by rewrite !fn_lookup_insert_ne.
Qed.

(** It never touches the channel fields or the keyword fields. *)
Lemma plan_block_frame (output_stride : Z) (b l : loc) (p : planner) (σ : store) :
  let σ' := (plan_block output_stride b p σ).2 in
  BlockCfg.in_chs (σ' l) = BlockCfg.in_chs (σ l) ∧
  BlockCfg.out_chs (σ' l) = BlockCfg.out_chs (σ l).
Proof.
  simpl. destruct (decide (l = b)) as [->|Hne].
  - rewrite plan_block_cases.
    repeat case_match; simpl; by rewrite !fn_lookup_insert.
  - by rewrite plan_block_other.
Qed.

Lemma plan_block_strides_from (output_stride : Z) (b : loc) (p : planner)
    (σ0 σ : store) :
  strides_from σ0 σ → strides_from σ0 (plan_block output_stride b p σ).2.
Proof.
  intros Hinv l. destruct (decide (l = b)) as [->|Hne].
  - rewrite plan_block_cases.
    repeat case_match; simpl; rewrite !fn_lookup_insert; simpl; auto.
  - rewrite plan_block_other; auto.
Qed.

Lemma plan_run_snoc (output_stride : Z) (pre : list loc) (b : loc)
    (ps : planner * store) :
  plan_run output_stride (pre ++ [b]) ps =
  plan_step output_stride (plan_run output_stride pre ps) b.
Proof. unfold plan_run. by rewrite foldl_app. Qed.

(** One block: the running pair stays positive, does not decrease, and the
    stride stays within the target. *)
Lemma plan_step_grows (output_stride : Z) (b : loc) (ps : planner * store) :
  0 < curr_stride ps.1 → 0 < curr_dilation ps.1 →
  let ps' := plan_step output_stride ps b in
  curr_stride ps.1 ≤ curr_stride ps'.1 ∧
  curr_dilation ps.1 ≤ curr_dilation ps'.1 ∧
  (curr_stride ps.1 ≤ output_stride → curr_stride ps'.1 ≤ output_stride).
Proof.
  intros Hs Hd. unfold plan_step. rewrite plan_block_cases.
  destruct (Z.gtb_spec (BlockCfg.stride (ps.2 b)) 1) as [H1|H1];
    [destruct (Z.gtb_spec (curr_stride ps.1 * BlockCfg.stride (ps.2 b))
                 output_stride) as [H2|H2]|]; simpl; nia.
Qed.

Lemma plan_run_positive (output_stride : Z) (cfg : list loc)
    (ps : planner * store) :
  0 < curr_stride ps.1 → 0 < curr_dilation ps.1 →
  let ps' := plan_run output_stride cfg ps in
  0 < curr_stride ps'.1 ∧ 0 < curr_dilation ps'.1.
Proof.
  induction cfg as [|b cfg IH] using rev_ind; intros Hs Hd; simpl; [done|].
  rewrite plan_run_snoc.
  destruct (IH Hs Hd) as [Hs' Hd'].
  pose proof (plan_step_grows output_stride b _ Hs' Hd') as (? & ? & _).
  lia.
Qed.

Lemma plan_run_bounded (output_stride : Z) (cfg : list loc)
    (ps : planner * store) :
  0 < curr_stride ps.1 → 0 < curr_dilation ps.1 →
  curr_stride ps.1 ≤ output_stride →
  curr_stride (plan_run output_stride cfg ps).1 ≤ output_stride.
Proof.
  induction cfg as [|b cfg IH] using rev_ind; intros Hs Hd Hle; [done|].
  rewrite plan_run_snoc.
  destruct (plan_run_positive output_stride cfg ps Hs Hd) as [Hs' Hd'].
  pose proof (plan_step_grows output_stride b _ Hs' Hd') as (_ & _ & Hb).
  apply Hb. by apply IH.
Qed.

Lemma plan_step_eq (output_stride : Z) (b : loc) (p : planner) (σ : store) :
  plan_step output_stride (p, σ) b =
  ((plan_block output_stride b p σ).1.2, (plan_block output_stride b p σ).2).
Proof. unfold plan_step. simpl. by destruct (plan_block _ _ _ _) as [[??]?]. Qed.

Lemma outcomes_cons (output_stride : Z) (σ0 : store) (b : loc)
    (cfg : list loc) (p : planner) (σ : store) :
  let r := plan_block output_stride b p σ in
  outcomes output_stride σ0 (b :: cfg) p σ =
  mk_outcome (BlockCfg.stride (σ0 b)) (BlockCfg.stride (σ b))
    (BlockCfg.stride (r.2 b)) (BlockCfg.dilation (r.2 b)) r.1.1
  :: outcomes output_stride σ0 cfg r.1.2 r.2.
Proof. simpl. by destruct (plan_block _ _ _ _) as [[??]?]. Qed.

(** The outcome of one block, branch by branch. *)
Lemma plan_block_outcome (output_stride : Z) (σ0 : store) (b : loc)
    (p : planner) (σ : store) :
  strides_from σ0 σ →
  let r := plan_block output_stride b p σ in
  let o := mk_outcome (BlockCfg.stride (σ0 b)) (BlockCfg.stride (σ b))
             (BlockCfg.stride (r.2 b)) (BlockCfg.dilation (r.2 b)) r.1.1 in
  effective_dilation o = Some (curr_dilation p) ∧
  flagged o = (found o >? 1) ∧
  flagged o = boundary o ∧
  curr_dilation r.1.2 =
    (if absorbed o then curr_dilation p * declared o else curr_dilation p) ∧
  (absorbed o = true → effective o = 1 ∧ 1 < declared o ∧
                       curr_stride r.1.2 = curr_stride p) ∧
  (absorbed o = false → effective o = found o).
Proof.
  intros Hinv r o. subst o r. unfold boundary, absorbed. simpl.
  rewrite plan_block_cases.
  destruct (Z.gtb_spec (BlockCfg.stride (σ b)) 1) as [H1|H1];
    [destruct (Z.gtb_spec (curr_stride p * BlockCfg.stride (σ b))
                 output_stride) as [H2|H2]|];
    simpl; rewrite !fn_lookup_insert; simpl.
  - assert ((BlockCfg.stride (σ b) =? 1) = false) as -> by lia. simpl.
    destruct (Hinv b) as [<-|?]; [|lia].
    repeat split; auto; try lia; done.
  - rewrite Z.eqb_refl. simpl.
    destruct (Z.gtb_spec (BlockCfg.stride (σ b)) 1); [|lia].
    repeat split; auto; done.
  - rewrite Z.eqb_refl. simpl.
    destruct (Z.gtb_spec (BlockCfg.stride (σ b)) 1); [lia|].
    repeat split; auto; done.
Qed.

Lemma product_cons (z : Z) (zs : list Z) : product (z :: zs) = z * product zs.
Proof. reflexivity. Qed.

(** The running dilation is the product of the absorbed strides. *)
Lemma plan_run_dilation (output_stride : Z) (σ0 : store) (cfg : list loc) :
  ∀ (p : planner) (σ : store),
    strides_from σ0 σ →
    curr_dilation (plan_run output_stride cfg (p, σ)).1 =
    curr_dilation p *
    product (absorbed_strides (outcomes output_stride σ0 cfg p σ)).
Proof.
  induction cfg as [|b cfg IH]; intros p σ Hinv.
  - unfold product; simpl. lia.
  - unfold plan_run in *. cbn [foldl]. rewrite plan_step_eq, outcomes_cons.
    cbv zeta.
    rewrite IH; [|by apply plan_block_strides_from].
    destruct (plan_block_outcome output_stride σ0 b p σ Hinv)
      as (_ & _ & _ & Hd & _).
    cbv zeta in Hd. rewrite Hd. unfold absorbed_strides.
    set (o := mk_outcome _ _ _ _ _).
    destruct (absorbed o) eqn:Ha.
    + rewrite filter_cons_True by done. rewrite fmap_cons, product_cons.
      simpl. lia.
    + rewrite filter_cons_False by (rewrite Ha; done). done.
Qed.

(** ** XceptionModule *)

Lemma normalize_out_chs_valid (out_chs : chs) :
  chs_valid out_chs = true →
  ∃ o0 o1 o2, XceptionModule.normalize_out_chs out_chs = Ok [o0; o1; o2].
Proof.
  destruct out_chs as [c|cs]; simpl.
  - intros _. by exists c, c, c.
  - intros Hlen%bool_decide_eq_true.
    destruct cs as [|o0 [|o1 [|o2 [|??]]]]; try done.
    exists o0, o1, o2. unfold XceptionModule.normalize_out_chs.
    by rewrite bool_decide_eq_true_2.
Qed.

Lemma normalize_out_chs_invalid (out_chs : chs) :
  chs_valid out_chs = false →
  XceptionModule.normalize_out_chs out_chs = Raise AssertionError.
Proof.
  destruct out_chs as [c|cs]; simpl; [done|].
  intros Hlen. unfold XceptionModule.normalize_out_chs. by rewrite Hlen.
Qed.

Lemma normalize_out_chs_inv (out_chs : chs) (l : list Z) :
  XceptionModule.normalize_out_chs out_chs = Ok l →
  chs_valid out_chs = true ∧ ∃ o0 o1 o2, l = [o0; o1; o2].
Proof.
  intros Hn. destruct (chs_valid out_chs) eqn:Hv.
  - split; [done|].
    destruct (normalize_out_chs_valid _ Hv) as (o0 & o1 & o2 & Heq).
    exists o0, o1, o2. congruence.
  - rewrite normalize_out_chs_invalid in Hn; done.
Qed.

Lemma init_built (in_chs : Z) (out_chs : chs) (o0 o1 o2 stride dilation : Z)
    (pad_type : string) (start_with_relu no_skip : bool)
    (act_layer : act_kind) (norm_layer : norm_kind)
    (norm_kwargs : option kwargs) :
  XceptionModule.normalize_out_chs out_chs = Ok [o0; o1; o2] →
  XceptionModule.init in_chs out_chs stride dilation pad_type start_with_relu
    no_skip act_layer norm_layer norm_kwargs =
  Ok (built_module in_chs o0 o1 o2 stride dilation pad_type start_with_relu
        no_skip act_layer norm_layer (kwargs_or_empty norm_kwargs)).
Proof.
  intros Hn. unfold XceptionModule.init. rewrite Hn.
  destruct start_with_relu; vm_compute; reflexivity.
Qed.

Lemma init_invalid (in_chs : Z) (out_chs : chs) (stride dilation : Z)
    (pad_type : string) (start_with_relu no_skip : bool)
    (act_layer : act_kind) (norm_layer : norm_kind)
    (norm_kwargs : option kwargs) :
  chs_valid out_chs = false →
  XceptionModule.init in_chs out_chs stride dilation pad_type start_with_relu
    no_skip act_layer norm_layer norm_kwargs = Raise AssertionError.
Proof.
  intros Hv. unfold XceptionModule.init.
  by rewrite normalize_out_chs_invalid.
Qed.

(** ** The builder loop *)

Lemma add_module_fresh {A} (name : string) (m : A) (s : Sequential A) :
  name ∉ s.*1 → add_module name m s = s ++ [(name, m)].
Proof.
  induction s as [|[n m'] s IH]; simpl; [done|].
  intros Hnotin. apply not_elem_of_cons in Hnotin as [Hne Hnotin].
  rewrite decide_False by done. by rewrite IH.
Qed.

Lemma index_last_snoc {A} (xs : list A) (x : A) :
  index_last (xs ++ [x]) = Ok x.
Proof. unfold index_last. by rewrite last_snoc. Qed.

Lemma pretty_fresh (i : nat) : pretty i ∉ (pretty <$> seq 0 i : list string).
Proof.
  intros (j & Heq & Hj)%list_elem_of_fmap.
  apply (inj pretty) in Heq. subst j.
  apply elem_of_seq in Hj. lia.
Qed.

(** One iteration: it raises exactly when the channel tuple of the dict is
    malformed, and otherwise appends one module named after the index. *)
Lemma loop_body_step (output_stride : Z) (act_layer : act_kind)
    (norm_layer : norm_kind) (norm_kwargs : kwargs)
    (i : nat) (b : loc) (s : loop_state) :
  (l_blocks s).*1 = pretty <$> seq 0 i →
  let r := plan_block output_stride b (l_planner s) (l_store s) in
  if chs_valid (BlockCfg.out_chs (l_store s b)) then
    ∃ m, XceptionModule_of (r.2 b) act_layer norm_layer norm_kwargs = Ok m ∧
         XceptionModule.in_channels m = BlockCfg.in_chs (l_store s b) ∧
         loop_body output_stride act_layer norm_layer norm_kwargs (i, b) s =
         Ok (mk_loop r.1.2 r.2 (l_blocks s ++ [(pretty i, m)])
               (Some (XceptionModule.out_channels m))
               (if r.1.1
                then l_feature_info s ++
                     [mk_feature_info (XceptionModule.out_channels m)
                        (curr_stride r.1.2)
                        ("blocks." +:+ pretty i +:+ ".stack.act2")]
                else l_feature_info s))
  else loop_body output_stride act_layer norm_layer norm_kwargs (i, b) s =
       Raise AssertionError.
Proof.
  intros Hnames r.
  destruct (plan_block_frame output_stride b b (l_planner s) (l_store s))
    as [Hin Hout].
  fold r in Hin, Hout.
  unfold loop_body. fold r. destruct r as [[f p] σ'] eqn:Hr. simpl in *.
  destruct (chs_valid _) eqn:Hv.
  - rewrite <- Hout in Hv.
    destruct (normalize_out_chs_valid _ Hv) as (o0 & o1 & o2 & Hn).
    unfold XceptionModule_of. rewrite (init_built _ _ _ _ _ _ _ _ _ _ _ _ _ Hn).
    eexists. split; [done|]. split; [by rewrite <- Hin|].
    simpl. rewrite add_module_fresh by (rewrite Hnames; apply pretty_fresh).
    rewrite fmap_app. simpl. rewrite index_last_snoc. simpl.
    reflexivity.
  - rewrite <- Hout in Hv. unfold XceptionModule_of.
    by rewrite init_invalid.
Qed.

Lemma names_snoc {A} (blocks : Sequential A) (i : nat) (m : A) :
  blocks.*1 = pretty <$> seq 0 i →
  (blocks ++ [(pretty i, m)]).*1 = pretty <$> seq 0 (S i).
Proof. intros Hn. rewrite fmap_app, Hn, seq_S, fmap_app. done. Qed.

Lemma forallb_valid_step (output_stride : Z) (b : loc) (p : planner)
    (σ : store) (cfg : list loc) :
  forallb (λ l, chs_valid (BlockCfg.out_chs ((plan_block output_stride b p σ).2 l))) cfg =
  forallb (λ l, chs_valid (BlockCfg.out_chs (σ l))) cfg.
Proof.
  induction cfg as [|l cfg IH]; simpl; [done|].
  rewrite IH.
  by destruct (plan_block_frame output_stride b l p σ) as [_ ->].
Qed.

(** The loop raises [AssertionError] when some dict of the list has a
    malformed channel tuple, and runs to the end otherwise. *)
Lemma loop_result (output_stride : Z) (act_layer : act_kind)
    (norm_layer : norm_kind) (norm_kwargs : kwargs) (cfg : list loc) :
  ∀ (i : nat) (s : loop_state),
    (l_blocks s).*1 = pretty <$> seq 0 i →
    if forallb (λ l, chs_valid (BlockCfg.out_chs (l_store s l))) cfg
    then ∃ s', for_each (loop_body output_stride act_layer norm_layer norm_kwargs)
                 (zip (seq i (length cfg)) cfg) s = Ok s'
    else for_each (loop_body output_stride act_layer norm_layer norm_kwargs)
           (zip (seq i (length cfg)) cfg) s = Raise AssertionError.
Proof.
  induction cfg as [|b cfg IH]; intros i s Hnames;
    cbn [length seq zip zip_with for_each forallb].
  - by eexists.
  - pose proof (loop_body_step output_stride act_layer norm_layer norm_kwargs
                  i b s Hnames) as Hstep.
    cbv zeta in Hstep.
    destruct (chs_valid (BlockCfg.out_chs (l_store s b))) eqn:Hv;
      cbn [andb].
    + destruct Hstep as (m & _ & _ & ->). cbn [mbind result_bind].
      match goal with
      | |- context [for_each _ _ ?s1] => pose proof (IH (S i) s1) as IH1
      end.
      cbn [l_blocks l_store] in IH1. rewrite forallb_valid_step in IH1.
      apply IH1. by apply names_snoc.
    + by rewrite Hstep.
Qed.

(** What a run of the loop that reaches the end has done. *)
Lemma loop_ok (output_stride : Z) (act_layer : act_kind)
    (norm_layer : norm_kind) (norm_kwargs : kwargs) (σ0 : store)
    (cfg : list loc) :
  ∀ (i : nat) (s s' : loop_state),
    (l_blocks s).*1 = pretty <$> seq 0 i →
    for_each (loop_body output_stride act_layer norm_layer norm_kwargs)
      (zip (seq i (length cfg)) cfg) s = Ok s' →
    (l_planner s', l_store s') =
      plan_run output_stride cfg (l_planner s, l_store s) ∧
    (∃ rest, l_blocks s' = l_blocks s ++ rest ∧
             length rest = length cfg ∧
             ∀ k b, cfg !! k = Some b →
               ∃ m, rest !! k = Some (pretty (i + k)%nat, m) ∧
                    XceptionModule.in_channels m = BlockCfg.in_chs (l_store s b)) ∧
    (∃ es, l_feature_info s' = l_feature_info s ++ es ∧
           length es =
             length (filter (λ o, flagged o = true)
                       (outcomes output_stride σ0 cfg (l_planner s) (l_store s))) ∧
           Forall (λ e, ∃ suffix, module e = "blocks." +:+ suffix) es) ∧
    (cfg ≠ [] ∨ is_Some (l_num_features s) → is_Some (l_num_features s')).
Proof.
  induction cfg as [|b cfg IH]; intros i s s' Hnames Hrun.
  - simpl in Hrun. injection Hrun as <-.
    split; [by destruct s|]. split; [exists []; by rewrite app_nil_r|].
    split; [exists []; by rewrite app_nil_r|]. by intros [?|?].
  - cbn [length seq zip zip_with for_each] in Hrun.
    pose proof (loop_body_step output_stride act_layer norm_layer norm_kwargs
                  i b s Hnames) as Hstep.
    cbv zeta in Hstep.
    destruct (chs_valid (BlockCfg.out_chs (l_store s b)));
      [|by rewrite Hstep in Hrun].
    destruct Hstep as (m & _ & Hin & Hbody). rewrite Hbody in Hrun.
    cbn [mbind result_bind] in Hrun.
    apply (IH (S i)) in Hrun; [|by apply names_snoc]. clear IH.
    cbn [l_planner l_store l_blocks l_feature_info] in Hrun.
    destruct Hrun as (Hplan & (rest & Hblocks & Hlen & Hrest) &
                      (es & Hfi & Hes & Hmods) & Hnum).
    split; [|split; [|split]].
    + rewrite Hplan. unfold plan_run. cbn [foldl]. by rewrite plan_step_eq.
    + exists ((pretty i, m) :: rest). split; [|split].
      * by rewrite Hblocks, <- app_assoc.
      * simpl. by rewrite Hlen.
      * intros [|k] b' Hk; simpl in Hk.
        -- injection Hk as <-. exists m. split; [|done].
           by rewrite Nat.add_0_r.
        -- destruct (Hrest k b' Hk) as (m' & Hm' & Hin').
           exists m'. split.
           ++ simpl. by rewrite Nat.add_succ_r.
           ++ rewrite Hin'.
              by destruct (plan_block_frame output_stride b b' (l_planner s)
                             (l_store s)) as [-> _].
    + rewrite outcomes_cons. cbv zeta.
      destruct (plan_block output_stride b (l_planner s) (l_store s)).1.1
        eqn:Hf.
      * eexists (_ :: es). split; [|split].
        -- by rewrite Hfi, <- app_assoc.
        -- rewrite filter_cons_True by done. simpl. by rewrite Hes.
        -- constructor; [|done]. simpl. by eexists.
      * exists es. split; [done|split; [|done]].
        rewrite filter_cons_False by (simpl; congruence). done.
    + intros _. apply Hnum. right. by eexists.
Qed.

(** Scenario A: [xception41] at [output_stride=32] absorbs nothing. *)
Example xception41_stride32_plan :
  (plan_run 32 xception41_block_cfg (planner_init, alloc xception41_dicts)).1 =
  mk_planner 32 1.
Proof. reflexivity. Qed.

(** One stride-2 dict listed twice, after two others, at [output_stride=8]:
    the first visit absorbs its stride and writes 1 into the dict, so the
    second visit finds stride 1, is not flagged, and the dilation is
    doubled once. *)
Example shared_dict_is_absorbed_once :
  let σ := alloc [BlockCfg.dict 64 (ChsInt 128) 2;
                  BlockCfg.dict 128 (ChsInt 256) 2;
                  BlockCfg.dict 256 (ChsInt 256) 2] in
  let cfg := [0; 1; 2; 2]%nat in
  found <$> outcomes 8 σ cfg planner_init σ = [2; 2; 2; 1] ∧
  flagged <$> outcomes 8 σ cfg planner_init σ = [true; true; true; false] ∧
  (plan_run 8 cfg (planner_init, σ)).1 = mk_planner 8 2.
Proof. repeat split; reflexivity. Qed.

(** ** Planner properties *)

(** C7.  A block whose dict declares stride 1: the planner writes the
    running dilation into the dict, leaves its stride at 1 and its other
    keys alone, leaves the running pair as it was, raises no
    [feature_extract] flag and touches no other dict, whatever the target
    [output_stride] is. *)
Theorem stride_one_block_passes (output_stride : Z) (b : loc) (p : planner)
    (σ : store) :
  BlockCfg.stride (σ b) = 1 →
  let r := plan_block output_stride b p σ in
  r.1.1 = false ∧
  r.1.2 = p ∧
  r.2 b = BlockCfg.set_dilation (curr_dilation p) (σ b) ∧
  BlockCfg.dilation (r.2 b) = Some (curr_dilation p) ∧
  BlockCfg.stride (r.2 b) = 1 ∧
  (∀ l, l ≠ b → r.2 l = σ l).
Proof.
  intros Hs r. subst r. rewrite plan_block_cases. cbv zeta. rewrite Hs.
  simpl. rewrite fn_lookup_insert. simpl.
  repeat split; try done.
  intros l Hne. by rewrite fn_lookup_insert_ne.
Qed.

Lemma stride_one_block_passes_witness :
  let σ := alloc xception41_dicts in
  let r := plan_block 16 3%nat (mk_planner 16 1) σ in
  BlockCfg.stride (σ 3%nat) = 1 ∧
  r.1.1 = false ∧ r.1.2 = mk_planner 16 1 ∧
  BlockCfg.dilation (r.2 3%nat) = Some 1 ∧ BlockCfg.stride (r.2 3%nat) = 1.
Proof.
  intros σ r.
  assert (Hs : BlockCfg.stride (σ 3%nat) = 1) by reflexivity.
  destruct (stride_one_block_passes 16 3%nat (mk_planner 16 1) σ Hs)
    as (Hf & Hp & _ & Hd & Hst & _).
  exact (conj Hs (conj Hf (conj Hp (conj Hd Hst)))).
Defined.

Lemma valid_output_stride_ge (output_stride : Z) :
  output_stride ∈ [8; 16; 32] → 2 ≤ output_stride.
Proof.
  intros H. repeat (apply elem_of_cons in H as [->|H]); try lia.
  by apply elem_of_nil in H.
Qed.

(** C1.  For a target in {8, 16, 32} and any list of block dicts: after
    every prefix of the list the running stride is at most the target; one
    more block never lowers the running stride or the running dilation; at
    the end the running dilation is the product of the declared strides of
    the blocks whose stride was absorbed.  The pair the builder ends with
    is the one described here: it is the reduction of the trailing
    feature-info entry. *)
Theorem stride_capped_dilation_product (output_stride : Z) (cfg : list loc)
    (σ : store) :
  output_stride ∈ [8; 16; 32] →
  let run pre := (plan_run output_stride pre (planner_init, σ)).1 in
  (∀ pre post, cfg = pre ++ post → curr_stride (run pre) ≤ output_stride) ∧
  (∀ pre b post, cfg = pre ++ b :: post →
     curr_stride (run pre) ≤ curr_stride (run (pre ++ [b])) ∧
     curr_dilation (run pre) ≤ curr_dilation (run (pre ++ [b]))) ∧
  curr_dilation (run cfg) =
    product (absorbed_strides (outcomes output_stride σ cfg planner_init σ)) ∧
  (∀ num_classes in_chans act_layer norm_layer norm_kwargs drop_rate
     global_pool m σ',
     init cfg σ num_classes in_chans output_stride act_layer norm_layer
       norm_kwargs drop_rate global_pool = Ok (m, σ') →
     reduction <$> last (feature_info m) = Some (curr_stride (run cfg)) ∧
     σ' = (plan_run output_stride cfg (planner_init, σ)).2).
Proof.
  intros Hos run. pose proof (valid_output_stride_ge _ Hos) as Hge.
  assert (Hpos : ∀ pre, 0 < curr_stride (run pre) ∧ 0 < curr_dilation (run pre)).
  { intros pre. apply plan_run_positive; simpl; lia. }
  split; [|split; [|split]].
  - intros pre post _. apply plan_run_bounded; simpl; lia.
  - intros pre b post _. unfold run. rewrite plan_run_snoc.
    destruct (Hpos pre) as [Hs Hd].
    pose proof (plan_step_grows output_stride b _ Hs Hd) as (? & ? & _).
    done.
  - unfold run. rewrite (plan_run_dilation output_stride σ) by (intros l; auto).
    simpl. lia.
  - intros nc ic act nrm nk dr gp m σ' Hinit. unfold init in Hinit.
    destruct (check _ _); [|done]. cbn [mbind result_bind] in Hinit.
    destruct (for_each _ _ _) as [s|] eqn:Hloop; [|done].
    cbn [mbind result_bind] in Hinit.
    destruct (l_num_features s) as [nf|]; [|done].
    cbn [get_attr mbind result_bind] in Hinit.
    injection Hinit as <- <-.
    apply (loop_ok _ _ _ _ σ cfg 0) in Hloop as (Hplan & _); [|done].
    cbn [l_planner l_store feature_info] in *.
    rewrite last_snoc. cbn [fmap option_fmap option_map reduction].
    unfold run. rewrite <- Hplan. done.
Qed.

Lemma stride_capped_dilation_product_witness :
  let σ := alloc xception41_dicts in
  let run pre := (plan_run 16 pre (planner_init, σ)).1 in
  curr_stride (run xception41_block_cfg) ≤ 16 ∧
  curr_dilation (run xception41_block_cfg) =
    product (absorbed_strides
               (outcomes 16 σ xception41_block_cfg planner_init σ)).
Proof.
  intros σ run.
  assert (Hos : (16 : Z) ∈ [8; 16; 32]) by repeat constructor.
  destruct (stride_capped_dilation_product 16 xception41_block_cfg σ Hos)
    as (Hcap & _ & Hprod & _).
  split; [|exact Hprod].
  apply (Hcap xception41_block_cfg []). by rewrite app_nil_r.
Defined.

(** ** Builder properties *)

(** A construction that returns went through the assertion, ran the loop to
    the end and found [self.num_features] assigned. *)
Lemma init_inv (cfg : list loc) (σ σ' : store)
    (num_classes in_chans output_stride : Z) (act_layer : act_kind)
    (norm_layer : norm_kind) (norm_kwargs : option kwargs) (drop_rate : Q)
    (global_pool : string) (m : t) :
  init cfg σ num_classes in_chans output_stride act_layer norm_layer
    norm_kwargs drop_rate global_pool = Ok (m, σ') →
  output_stride ∈ [8; 16; 32] ∧
  ∃ s nf,
    for_each (loop_body output_stride act_layer norm_layer
                (kwargs_or_empty norm_kwargs))
      (zip (seq 0 (length cfg)) cfg) (loop_start σ) = Ok s ∧
    l_num_features s = Some nf ∧
    σ' = l_store s ∧
    num_features m = nf ∧
    blocks m = l_blocks s ∧
    feature_info m =
      l_feature_info s ++
      [mk_feature_info nf (curr_stride (l_planner s))
         ("blocks." +:+ pretty (Z.of_nat (length (l_blocks s)) - 1))] ∧
    head m = ClassifierHead.init nf num_classes global_pool drop_rate.
Proof.
  unfold init. intros Hinit.
  destruct (bool_decide (output_stride ∈ [8; 16; 32])) eqn:Hos; [|done].
  apply bool_decide_eq_true in Hos. split; [done|].
  cbn [check mbind result_bind] in Hinit.
  fold (loop_start σ) in Hinit. unfold enumerate in Hinit.
  destruct (for_each _ _ _) as [s|]; [|done].
  cbn [mbind result_bind] in Hinit.
  destruct (l_num_features s) as [nf|] eqn:Hnf; [|done].
  cbn [get_attr mbind result_bind] in Hinit.
  injection Hinit as <- <-. by exists s, nf.
Qed.

(** C10.  Whenever construction returns, the feature-info list starts with
    the entry of the stem, [num_chs=64, reduction=2, module='stem.1'], and
    every entry after it names a module under [blocks]. *)
Theorem feature_info_starts_with_stem (cfg : list loc) (σ σ' : store)
    (num_classes in_chans output_stride : Z) (act_layer : act_kind)
    (norm_layer : norm_kind) (norm_kwargs : option kwargs) (drop_rate : Q)
    (global_pool : string) (m : t) :
  init cfg σ num_classes in_chans output_stride act_layer norm_layer
    norm_kwargs drop_rate global_pool = Ok (m, σ') →
  ∃ rest,
    feature_info m = mk_feature_info 64 2 "stem.1" :: rest ∧
    Forall (λ e, ∃ suffix, module e = "blocks." +:+ suffix) rest.
Proof.
  intros (_ & s & nf & Hloop & _ & _ & _ & _ & Hfi & _)%init_inv.
  apply (loop_ok _ _ _ _ σ cfg 0) in Hloop
    as (_ & _ & (es & Hes & _ & Hmods) & _); [|done].
  rewrite Hfi, Hes. cbn [loop_start l_feature_info app].
  eexists. split; [reflexivity|].
  apply Forall_app. split; [done|].
  constructor; [|done]. simpl. by eexists.
Qed.

Lemma feature_info_starts_with_stem_witness :
  ∃ m σ' rest,
    xception41 1000 3 32 0%Q "avg" = Ok (m, σ') ∧
    feature_info m = mk_feature_info 64 2 "stem.1" :: rest ∧
    Forall (λ e, ∃ suffix, module e = "blocks." +:+ suffix) rest.
Proof.
  assert (∃ r, xception41 1000 3 32 0%Q "avg" = Ok r) as [[m σ'] Hx].
  { vm_compute. eexists. reflexivity. }
  destruct (feature_info_starts_with_stem _ _ _ _ _ _ _ _ _ _ _ _ Hx)
    as (rest & Hfi & Hrest).
  exists m, σ', rest. exact (conj Hx (conj Hfi Hrest)).
Defined.

Lemma outcomes_flagged_boundary (output_stride : Z) (σ0 : store)
    (cfg : list loc) :
  ∀ (p : planner) (σ : store),
    strides_from σ0 σ →
    length (filter (λ o, flagged o = true) (outcomes output_stride σ0 cfg p σ)) =
    length (filter (λ o, boundary o = true) (outcomes output_stride σ0 cfg p σ)).
Proof.
  induction cfg as [|b cfg IH]; intros p σ Hinv; [done|].
  rewrite outcomes_cons. cbv zeta.
  destruct (plan_block_outcome output_stride σ0 b p σ Hinv)
    as (_ & _ & Hfb & _).
  cbv zeta in Hfb.
  specialize (IH (plan_block output_stride b p σ).1.2
                 (plan_block output_stride b p σ).2
                 (plan_block_strides_from _ _ _ _ _ Hinv)).
  set (o := mk_outcome _ _ _ _ _) in *.
  destruct (flagged o) eqn:Hf.
  - rewrite !filter_cons_True by done. simpl. by rewrite IH.
  - rewrite !filter_cons_False by (rewrite <- ?Hfb, ?Hf; done). done.
Qed.

(** When no dict is listed twice every block is found with the stride it
    declares, so the flagged blocks are those declared with a stride above
    one. *)
Lemma outcomes_flagged_nodup (output_stride : Z) (σ0 : store)
    (cfg : list loc) :
  ∀ (p : planner) (σ : store),
    NoDup cfg →
    (∀ l, l ∈ cfg → BlockCfg.stride (σ l) = BlockCfg.stride (σ0 l)) →
    length (filter (λ o, flagged o = true) (outcomes output_stride σ0 cfg p σ)) =
    length (filter (λ b, (BlockCfg.stride (σ0 b) >? 1) = true) cfg).
Proof.
  induction cfg as [|b cfg IH]; intros p σ Hnd Hsame; [done|].
  apply NoDup_cons in Hnd as [Hnotin Hnd].
  rewrite outcomes_cons. cbv zeta.
  assert (Hf : (plan_block output_stride b p σ).1.1 =
               (BlockCfg.stride (σ0 b) >? 1)).
  { rewrite <- (Hsame b) by apply list_elem_of_here.
    rewrite plan_block_cases. cbv zeta. by repeat case_match. }
  assert (Htail :
    length (filter (λ o, flagged o = true)
              (outcomes output_stride σ0 cfg
                 (plan_block output_stride b p σ).1.2
                 (plan_block output_stride b p σ).2)) =
    length (filter (λ b, (BlockCfg.stride (σ0 b) >? 1) = true) cfg)).
  { apply IH; [done|]. intros l Hl.
    rewrite plan_block_other by (intros ->; done).
    apply Hsame. by apply list_elem_of_further. }
  destruct (BlockCfg.stride (σ0 b) >? 1) eqn:Hgt.
  - rewrite !filter_cons_True by done. simpl. by rewrite Htail.
  - rewrite !filter_cons_False by (simpl; congruence). done.
Qed.

(** C4, as the builder has it.  Whenever construction returns, the
    feature-info list holds the entry of the stem, one entry for every block
    whose stride stayed above one or was absorbed, and the trailing entry of
    the final block: two more than the number of such blocks.  When no dict
    is listed twice, these are the blocks declared with a stride above
    one. *)
Theorem feature_info_length (cfg : list loc) (σ σ' : store)
    (num_classes in_chans output_stride : Z) (act_layer : act_kind)
    (norm_layer : norm_kind) (norm_kwargs : option kwargs) (drop_rate : Q)
    (global_pool : string) (m : t) :
  init cfg σ num_classes in_chans output_stride act_layer norm_layer
    norm_kwargs drop_rate global_pool = Ok (m, σ') →
  let boundaries :=
    filter (λ o, boundary o = true)
      (outcomes output_stride σ cfg planner_init σ) in
  length (feature_info m) = (length boundaries + 2)%nat ∧
  (NoDup cfg →
   length boundaries =
   length (filter (λ b, (BlockCfg.stride (σ b) >? 1) = true) cfg)).
Proof.
  intros (_ & s & nf & Hloop & _ & _ & _ & _ & Hfi & _)%init_inv boundaries.
  apply (loop_ok _ _ _ _ σ cfg 0) in Hloop
    as (_ & _ & (es & Hes & Hlen & _) & _); [|done].
  assert (Hinv : strides_from σ σ) by (intros l; auto).
  subst boundaries. split.
  - rewrite <- outcomes_flagged_boundary by done.
    rewrite Hfi, Hes, !length_app, Hlen. cbn [loop_start l_feature_info length
      l_planner l_store]. lia.
  - intros Hnd. rewrite <- outcomes_flagged_boundary by done.
    by apply outcomes_flagged_nodup.
Qed.

Lemma feature_info_length_witness :
  ∃ m σ',
    xception41 1000 3 32 0%Q "avg" = Ok (m, σ') ∧
    length (feature_info m) =
    (length (filter (λ o, boundary o = true)
               (outcomes 32 (alloc xception41_dicts) xception41_block_cfg
                  planner_init (alloc xception41_dicts))) + 2)%nat.
Proof.
  assert (∃ r, xception41 1000 3 32 0%Q "avg" = Ok r) as [[m σ'] Hx].
  { vm_compute. eexists. reflexivity. }
  exists m, σ'.
  exact (conj Hx (proj1 (feature_info_length _ _ _ _ _ _ _ _ _ _ _ _ Hx))).
Defined.

(** C4 as stated fails: for [xception41] at [output_stride=32] four blocks
    have a stride above one, and the list has six entries, not five. *)
Lemma xception41_has_six_feature_entries :
  ∃ m σ',
    xception41 1000 3 32 0%Q "avg" = Ok (m, σ') ∧
    length (filter (λ o, boundary o = true)
              (outcomes 32 (alloc xception41_dicts) xception41_block_cfg
                 planner_init (alloc xception41_dicts))) = 4%nat ∧
    length (filter (λ b, (BlockCfg.stride (alloc xception41_dicts b) >? 1) = true)
              xception41_block_cfg) = 4%nat ∧
    length (feature_info m) = 6%nat ∧
    length (feature_info m) ≠ (4 + 1)%nat.
Proof.
  assert (∃ r, xception41 1000 3 32 0%Q "avg" = Ok r ∧
               length (feature_info r.1) = 6%nat) as [[m σ'] [Hx Hlen]].
  { vm_compute. eexists. split; reflexivity. }
  exists m, σ'. simpl in Hlen.
  split; [exact Hx|]. split; [by vm_compute|]. split; [by vm_compute|].
  split; [exact Hlen|]. rewrite Hlen. lia.
Qed.



(** The outcome of [init] in the model, where every collaborator accepts
    its arguments, by cases on what the caller passed. *)
Lemma init_result (cfg : list loc) (σ : store)
    (num_classes in_chans output_stride : Z) (act_layer : act_kind)
    (norm_layer : norm_kind) (norm_kwargs : option kwargs) (drop_rate : Q)
    (global_pool : string) :
  let r := init cfg σ num_classes in_chans output_stride act_layer norm_layer
             norm_kwargs drop_rate global_pool in
  if bool_decide (output_stride ∈ [8; 16; 32]) then
    if forallb (λ l, chs_valid (BlockCfg.out_chs (σ l))) cfg then
      match cfg with
      | [] => r = Raise AttributeError
      | _ :: _ => ∃ m σ', r = Ok (m, σ')
      end
    else r = Raise AssertionError
  else r = Raise AssertionError.
Proof.
  intros r. subst r. unfold init.
  destruct (bool_decide (output_stride ∈ [8; 16; 32])); [|done].
  cbn [check mbind result_bind]. unfold enumerate.
  pose proof (loop_result output_stride act_layer norm_layer
                (kwargs_or_empty norm_kwargs) cfg 0 (loop_start σ) eq_refl)
    as Hres.
  cbn [loop_start l_store] in Hres.
  match goal with
  | |- context [for_each ?f ?l ?s0] => set (loop := for_each f l s0) in *
  end.
  destruct (forallb _ cfg).
  - destruct Hres as [s Hloop]. change (loop = Ok s) in Hloop.
    rewrite Hloop. cbn [mbind result_bind].
    destruct cfg as [|b cfg].
    + simpl in Hloop. by injection Hloop as <-.
    + apply (loop_ok _ _ _ _ σ (b :: cfg) 0) in Hloop
        as (_ & _ & _ & Hnum); [|done].
      destruct Hnum as [nf ->]; [by left|].
      cbn [get_attr mbind result_bind]. by eexists _, _.
  - change (loop = Raise AssertionError) in Hres. by rewrite Hres.
Qed.



(** C6 as stated fails: the second dict declares [in_chs=100] after a block
    that ends on 128 channels, and construction returns a network. *)
Lemma mismatched_channels_are_accepted :
  let σ := alloc [BlockCfg.dict 64 (ChsInt 128) 2;
                  BlockCfg.dict 100 (ChsInt 256) 2] in
  ∃ m σ' b0 b1,
    init [0; 1]%nat σ 1000 3 32 ReLU BatchNorm2d None 0%Q "avg" = Ok (m, σ') ∧
    blocks m = [("0", b0); ("1", b1)] ∧
    XceptionModule.out_channels b0 = 128 ∧
    XceptionModule.in_channels b1 = 100.
Proof.
  vm_compute. eexists _, _, _, _. repeat split; reflexivity.
Qed.

(** C6, as the builder has it.  The builder never compares the [in_chs] of
    a block with the channels the previous block ends on, and the network
    above shows that a list whose channels do not chain is built.  Whenever
    construction returns, with channels that chain or not, there is one
    block per listed dict, and block [k] is wired under the name [str(k)]
    with the [in_chs] its dict declares, unchanged. *)
Theorem init_ignores_channel_chaining (cfg : list loc) (σ σ' : store)
    (num_classes in_chans output_stride : Z) (act_layer : act_kind)
    (norm_layer : norm_kind) (norm_kwargs : option kwargs) (drop_rate : Q)
    (global_pool : string) (m : t) :
  init cfg σ num_classes in_chans output_stride act_layer norm_layer
    norm_kwargs drop_rate global_pool = Ok (m, σ') →
  length (blocks m) = length cfg ∧
  ∀ k b, cfg !! k = Some b →
    ∃ blk, blocks m !! k = Some (pretty k, blk) ∧
           XceptionModule.in_channels blk = BlockCfg.in_chs (σ b).
Proof.
  intros (_ & s & nf & Hloop & _ & _ & _ & Hblocks & _)%init_inv.
  apply (loop_ok _ _ _ _ σ cfg 0) in Hloop
    as (_ & (rest & Hrest & Hlen & Hlook) & _); [|done].
  cbn [loop_start l_blocks l_store app] in *.
  rewrite Hblocks, Hrest. split; [done|].
  intros k b Hk. destruct (Hlook k b Hk) as (blk & Hblk & Hin).
  by exists blk.
Qed.

Lemma init_ignores_channel_chaining_witness :
  let σ := alloc [BlockCfg.dict 64 (ChsInt 128) 2;
                  BlockCfg.dict 100 (ChsInt 256) 2] in
  ∃ m σ' blk,
    init [0; 1]%nat σ 1000 3 32 ReLU BatchNorm2d None 0%Q "avg" = Ok (m, σ') ∧
    length (blocks m) = 2%nat ∧
    blocks m !! 1%nat = Some ("1", blk) ∧
    XceptionModule.in_channels blk = 100.
Proof.
  intros σ.
  assert (∃ r, init [0; 1]%nat σ 1000 3 32 ReLU BatchNorm2d None 0%Q "avg"
               = Ok r) as [[m σ'] Hinit].
  { vm_compute. eexists. reflexivity. }
  destruct (init_ignores_channel_chaining _ _ _ _ _ _ _ _ _ _ _ _ Hinit)
    as (Hlen & Hwire).
  destruct (Hwire 1%nat 1%nat eq_refl) as (blk & Hblk & Hin).
  exists m, σ', blk. exact (conj Hinit (conj Hlen (conj Hblk Hin))).
Defined.

(** ** Block properties *)

Lemma init_module_inv (in_chs : Z) (out_chs : chs) (stride dilation : Z)
    (pad_type : string) (start_with_relu no_skip : bool)
    (act_layer : act_kind) (norm_layer : norm_kind)
    (norm_kwargs : option kwargs) (m : XceptionModule.t) :
  XceptionModule.init in_chs out_chs stride dilation pad_type start_with_relu
    no_skip act_layer norm_layer norm_kwargs = Ok m →
  ∃ o0 o1 o2,
    XceptionModule.normalize_out_chs out_chs = Ok [o0; o1; o2] ∧
    m = built_module in_chs o0 o1 o2 stride dilation pad_type start_with_relu
          no_skip act_layer norm_layer (kwargs_or_empty norm_kwargs).
Proof.
  intros Hinit. destruct (chs_valid out_chs) eqn:Hv.
  - destruct (normalize_out_chs_valid _ Hv) as (o0 & o1 & o2 & Hn).
    rewrite (init_built _ _ _ _ _ _ _ _ _ _ _ _ _ Hn) in Hinit.
    injection Hinit as <-. by exists o0, o1, o2.
  - by rewrite init_invalid in Hinit.
Qed.

(** C3.  The shortcut of a constructed block, with [stack_output] the
    output of the three-unit stack and [projection] the 1x1 [ConvBnAct]
    with the stride of the block and no activation:
    - [no_skip] false and the last of the out channels differs from
      [in_chs] or the stride is not 1: the block holds [projection] and
      returns [stack_output + projection(x)];
    - [no_skip] false, channels equal and stride 1: no projection is built
      and the block returns [stack_output + x];
    - [no_skip] true: no projection is built, nothing is added, the block
      returns [stack_output].
    The out channels of the block are the last entry of the triple. *)
Theorem shortcut_policy {tensor : Type} `{TensorOps tensor}
    (in_chs : Z) (out_chs : chs) (stride dilation : Z)
    (pad_type : string) (start_with_relu no_skip : bool)
    (act_layer : act_kind) (norm_layer : norm_kind)
    (norm_kwargs : option kwargs) (m : XceptionModule.t) (x : tensor) :
  XceptionModule.init in_chs out_chs stride dilation pad_type start_with_relu
    no_skip act_layer norm_layer norm_kwargs = Ok m →
  let stack_output :=
    Sequential_forward XceptionModule.layer_forward (XceptionModule.stack m) x in
  let projection :=
    mk_conv_bn_act in_chs (XceptionModule.out_channels m) 1 stride norm_layer
      (kwargs_or_empty norm_kwargs) None in
  (∃ o0 o1 o2, XceptionModule.normalize_out_chs out_chs = Ok [o0; o1; o2] ∧
               XceptionModule.out_channels m = o2) ∧
  (no_skip = false →
   XceptionModule.out_channels m ≠ in_chs ∨ stride ≠ 1 →
   XceptionModule.shortcut m = Some projection ∧
   XceptionModule.forward m x =
     tensor_add stack_output (conv_bn_act_fwd projection x)) ∧
  (no_skip = false →
   XceptionModule.out_channels m = in_chs → stride = 1 →
   XceptionModule.shortcut m = None ∧
   XceptionModule.forward m x = tensor_add stack_output x) ∧
  (no_skip = true →
   XceptionModule.shortcut m = None ∧
   XceptionModule.forward m x = stack_output).
Proof.
  intros (o0 & o1 & o2 & Hn & ->)%init_module_inv stack_output projection.
  subst stack_output projection.
  unfold XceptionModule.forward, built_module.
  cbn [XceptionModule.shortcut XceptionModule.no_skip
       XceptionModule.out_channels XceptionModule.stack].
  split; [by exists o0, o1, o2|]. split; [|split].
  - intros -> Hdiff. cbn [negb andb].
    assert (negb (o2 =? in_chs) || negb (stride =? 1) = true) as ->; [|done].
    destruct Hdiff as [Hc|Hs].
    + apply Z.eqb_neq in Hc. by rewrite Hc.
    + apply Z.eqb_neq in Hs. rewrite Hs. by rewrite orb_true_r.
  - intros -> -> ->. by rewrite !Z.eqb_refl.
  - intros ->. done.
Qed.

(** Scenario C: [in_chs=728], [out_chs=(728, 1024, 1024)], [stride=2] and
    [no_skip] false construct a projected shortcut. *)
Lemma shortcut_policy_witness :
  ∃ m, XceptionModule.init 728 (ChsSeq [728; 1024; 1024]) 2 1 EmptyString true false
         ReLU BatchNorm2d (Some preset_norm_kwargs) = Ok m ∧
       XceptionModule.shortcut m =
         Some (mk_conv_bn_act 728 1024 1 2 BatchNorm2d preset_norm_kwargs None) ∧
       ∀ x : list Q,
         XceptionModule.forward m x =
         tensor_add
           (Sequential_forward XceptionModule.layer_forward
              (XceptionModule.stack m) x)
           (conv_bn_act_fwd
              (mk_conv_bn_act 728 1024 1 2 BatchNorm2d preset_norm_kwargs None)
              x).
Proof.
  assert (∃ m, XceptionModule.init 728 (ChsSeq [728; 1024; 1024]) 2 1 EmptyString
                 true false ReLU BatchNorm2d (Some preset_norm_kwargs) = Ok m ∧
               XceptionModule.out_channels m = 1024) as (m & Hm & Hout).
  { vm_compute. eexists. split; reflexivity. }
  exists m. split; [exact Hm|].
  assert (Hdiff : XceptionModule.out_channels m ≠ 728 ∨ (2 : Z) ≠ 1)
    by (right; lia).
  split.
  - destruct (shortcut_policy (tensor := list Q) _ _ _ _ _ _ _ _ _ _ m [] Hm)
      as (_ & Hproj & _).
    destruct (Hproj eq_refl Hdiff) as [Hsc _].
    rewrite Hsc, Hout. reflexivity.
  - intros x.
    destruct (shortcut_policy (tensor := list Q) _ _ _ _ _ _ _ _ _ _ m x Hm)
      as (_ & Hproj & _).
    destruct (Hproj eq_refl Hdiff) as [_ Hfwd].
    rewrite Hfwd, Hout. reflexivity.
Defined.

(** C8.  The stack of a constructed block holds three separable-convolution
    units, in this order: [in_chs] to [out_chs[0]] with stride 1,
    [out_chs[0]] to [out_chs[1]] with stride 1, and [out_chs[1]] to
    [out_chs[2]] with the stride of the block. *)
Theorem stack_units_chained (in_chs : Z) (out_chs : chs) (stride dilation : Z)
    (pad_type : string) (start_with_relu no_skip : bool)
    (act_layer : act_kind) (norm_layer : norm_kind)
    (norm_kwargs : option kwargs) (m : XceptionModule.t) :
  XceptionModule.init in_chs out_chs stride dilation pad_type start_with_relu
    no_skip act_layer norm_layer norm_kwargs = Ok m →
  ∃ o0 o1 o2 c1 c2 c3,
    XceptionModule.normalize_out_chs out_chs = Ok [o0; o1; o2] ∧
    convs (XceptionModule.stack m) = [c1; c2; c3] ∧
    (unit_in c1, unit_out c1, unit_stride c1) = (in_chs, o0, Some 1) ∧
    (unit_in c2, unit_out c2, unit_stride c2) = (o0, o1, Some 1) ∧
    (unit_in c3, unit_out c3, unit_stride c3) = (o1, o2, Some stride).
Proof.
  intros (o0 & o1 & o2 & Hn & ->)%init_module_inv.
  exists o0, o1, o2. unfold built_module.
  cbn [XceptionModule.stack].
  destruct start_with_relu; eexists _, _, _; repeat split; done.
Qed.

Lemma stack_units_chained_witness :
  ∃ m c1 c2 c3,
    XceptionModule.init 728 (ChsSeq [728; 1024; 1024]) 2 1 EmptyString true false
      ReLU BatchNorm2d (Some preset_norm_kwargs) = Ok m ∧
    convs (XceptionModule.stack m) = [c1; c2; c3] ∧
    (unit_in c1, unit_out c1, unit_stride c1) = (728, 728, Some 1) ∧
    (unit_in c2, unit_out c2, unit_stride c2) = (728, 1024, Some 1) ∧
    (unit_in c3, unit_out c3, unit_stride c3) = (1024, 1024, Some 2).
Proof.
  assert (∃ m, XceptionModule.init 728 (ChsSeq [728; 1024; 1024]) 2 1 EmptyString
                 true false ReLU BatchNorm2d (Some preset_norm_kwargs) = Ok m)
    as (m & Hm).
  { vm_compute. eexists. reflexivity. }
  destruct (stack_units_chained _ _ _ _ _ _ _ _ _ _ m Hm)
    as (o0 & o1 & o2 & c1 & c2 & c3 & Hn & Hc & H1 & H2 & H3).
  assert (Ho : o0 = 728 ∧ o1 = 1024 ∧ o2 = 1024).
  { unfold XceptionModule.normalize_out_chs in Hn. simpl in Hn.
    by injection Hn as <- <- <-. }
  destruct Ho as (-> & -> & ->).
  exists m, c1, c2, c3. exact (conj Hm (conj Hc (conj H1 (conj H2 H3)))).
Defined.

(** ** Head properties *)

(** C9 as stated fails: with [num_classes=0] and [drop_rate=0.5] the freshly
    built head, which is in training mode, returns the pooled features
    after dropout, not the pooled features. *)
Lemma head_output_is_not_pooled_under_dropout :
  let h := ClassifierHead.init 2048 0 "avg" (1 # 2)%Q in
  let x : list Q := [1%Q; 2%Q] in
  ClassifierHead.fc h = Identity ∧
  ClassifierHead.forward h x ≠ ClassifierHead.pooled h x.
Proof.
  split; [reflexivity|]. vm_compute. discriminate.
Qed.

(** The same holds whatever mask the dropout draws. *)
Lemma dropout_changes_pooled_features (mask : nat → bool) :
  let h := ClassifierHead.init 2048 0 "avg" (1 # 2)%Q in
  let x : list Q := [1%Q; 2%Q] in
  ClassifierHead.forward (H := toy_ops mask) h x ≠
  ClassifierHead.pooled (H := toy_ops mask) h x.
Proof.
  intros h x. subst h x. unfold ClassifierHead.forward, ClassifierHead.pooled.
  cbn. unfold mask_dropout. cbn.
  destruct (mask 0%nat), (mask 1%nat); vm_compute; discriminate.
Qed.

(** C9, as the head has it.  With [num_classes = 0] the projection is the
    identity, so the head returns the pooled and flattened features after
    the dropout stage; that stage is skipped when [drop_rate] is zero, and
    the output is then exactly the pooled and flattened features.
    [reset_classifier] replaces the head and nothing else: [num_features],
    the stem, the blocks and the feature-info list stay, and the new head
    projects [num_features] to the new class count. *)
Theorem head_identity_and_reset {tensor : Type} `{TensorOps tensor}
    (self : t) (in_chs : Z) (pool_type : string) (drop_rate : Q)
    (num_classes : Z) (global_pool : string) (x : tensor) :
  let h := ClassifierHead.init in_chs 0 pool_type drop_rate in
  let self' := reset_classifier self num_classes global_pool in
  ClassifierHead.fc h = Identity ∧
  ClassifierHead.forward h x =
    (if ClassifierHead.truthy drop_rate
     then F_dropout (ClassifierHead.pooled h x) drop_rate true
     else ClassifierHead.pooled h x) ∧
  (Qeq_bool drop_rate 0 = true →
   ClassifierHead.forward h x = ClassifierHead.pooled h x) ∧
  num_features self' = num_features self ∧
  stem self' = stem self ∧
  blocks self' = blocks self ∧
  feature_info self' = feature_info self ∧
  XceptionAligned.num_classes self' = XceptionAligned.num_classes self ∧
  XceptionAligned.drop_rate self' = XceptionAligned.drop_rate self ∧
  forward_features self' x = forward_features self x ∧
  head self' =
    ClassifierHead.init (num_features self) num_classes global_pool
      (XceptionAligned.drop_rate self) ∧
  (0 < num_classes →
   get_classifier self' = Linear (num_features self) num_classes true).
Proof.
  intros h self'. subst h self'.
  split; [reflexivity|]. split; [reflexivity|]. split.
  - intros Hz. unfold ClassifierHead.forward, ClassifierHead.truthy.
    cbn [ClassifierHead.init ClassifierHead.drop_rate ClassifierHead.fc].
    rewrite Hz. reflexivity.
  - repeat split; try reflexivity.
    intros Hpos. unfold get_classifier, reset_classifier, set_head.
    cbn [head ClassifierHead.init ClassifierHead.fc].
    by destruct (Z.gtb_spec num_classes 0); [|lia].
Qed.

Lemma head_identity_and_reset_witness :
  ∃ m σ',
    xception41 0 3 32 0%Q "avg" = Ok (m, σ') ∧
    (∀ x : list Q,
       ClassifierHead.forward (ClassifierHead.init 2048 0 "avg" 0%Q) x =
       ClassifierHead.pooled (ClassifierHead.init 2048 0 "avg" 0%Q) x) ∧
    num_features (reset_classifier m 10 "avg") = num_features m ∧
    get_classifier (reset_classifier m 10 "avg") =
      Linear (num_features m) 10 true.
Proof.
  assert (∃ r, xception41 0 3 32 0%Q "avg" = Ok r) as [[m σ'] Hx].
  { vm_compute. eexists. reflexivity. }
  exists m, σ'. split; [exact Hx|].
  split; [|split].
  - intros x.
    destruct (head_identity_and_reset m 2048 "avg" 0%Q 10 "avg" x)
      as (_ & _ & Hfwd & _).
    exact (Hfwd eq_refl).
  - destruct (head_identity_and_reset m 2048 "avg" 0%Q 10 "avg" (@nil Q))
      as (_ & _ & _ & Hnf & _).
    exact Hnf.
  - destruct (head_identity_and_reset m 2048 "avg" 0%Q 10 "avg" (@nil Q))
      as (_ & _ & _ & _ & _ & _ & _ & _ & _ & _ & _ & Hfc).
    apply Hfc. lia.
Defined.

(** ** Scenario B: [xception41] at [output_stride=16] *)



(** * Further properties *)

(** ** What the planner does to the dicts *)

(** The dict at [b] after one planner step: the dilation key holds the
    running dilation from before, the stride key its old value or 1, the
    other keys are as they were. *)
Lemma plan_block_dict (output_stride : Z) (b : loc) (p : planner) (σ : store) :
  ∃ s, (s = BlockCfg.stride (σ b) ∨ s = 1) ∧
       (plan_block output_stride b p σ).2 b =
       BlockCfg.mk (BlockCfg.in_chs (σ b)) (BlockCfg.out_chs (σ b)) s
         (Some (curr_dilation p)) (BlockCfg.pad_type (σ b))
         (BlockCfg.start_with_relu (σ b)) (BlockCfg.no_skip (σ b)).
Proof.
  rewrite plan_block_cases. cbv zeta.
  repeat case_match; simpl; rewrite !fn_lookup_insert; eexists; eauto.
Qed.

Lemma plan_run_cons (output_stride : Z) (b : loc) (cfg : list loc)
    (p : planner) (σ : store) :
  plan_run output_stride (b :: cfg) (p, σ) =
  plan_run output_stride cfg
    ((plan_block output_stride b p σ).1.2, (plan_block output_stride b p σ).2).
Proof. unfold plan_run. cbn [foldl]. by rewrite plan_step_eq. Qed.

Lemma plan_run_other (output_stride : Z) (cfg : list loc) :
  ∀ (p : planner) (σ : store) (l : loc),
    l ∉ cfg → (plan_run output_stride cfg (p, σ)).2 l = σ l.
Proof.
  induction cfg as [|b cfg IH]; intros p σ l Hl; [done|].
  apply not_elem_of_cons in Hl as [Hne Hl].
  rewrite plan_run_cons, IH by done. by apply plan_block_other.
Qed.

Lemma plan_run_keys (output_stride : Z) (cfg : list loc) :
  ∀ (p : planner) (σ : store) (l : loc),
    let σ' := (plan_run output_stride cfg (p, σ)).2 in
    BlockCfg.in_chs (σ' l) = BlockCfg.in_chs (σ l) ∧
    BlockCfg.out_chs (σ' l) = BlockCfg.out_chs (σ l) ∧
    BlockCfg.pad_type (σ' l) = BlockCfg.pad_type (σ l) ∧
    BlockCfg.start_with_relu (σ' l) = BlockCfg.start_with_relu (σ l) ∧
    BlockCfg.no_skip (σ' l) = BlockCfg.no_skip (σ l) ∧
    (BlockCfg.stride (σ' l) = BlockCfg.stride (σ l) ∨
     BlockCfg.stride (σ' l) = 1) ∧
    (is_Some (BlockCfg.dilation (σ l)) ∨ l ∈ cfg →
     is_Some (BlockCfg.dilation (σ' l))).
Proof.
  induction cfg as [|b cfg IH]; intros p σ l; cbv zeta.
  - repeat split; auto. intros [?|Hl]; [done|]. by apply elem_of_nil in Hl.
  - rewrite plan_run_cons.
    specialize (IH (plan_block output_stride b p σ).1.2
                   (plan_block output_stride b p σ).2 l).
    cbv zeta in IH.
    destruct IH as (Hi & Ho & Hp & Hr & Hn & Hs & Hd).
    rewrite Hi, Ho, Hp, Hr, Hn.
    destruct (decide (l = b)) as [->|Hne].
    + destruct (plan_block_dict output_stride b p σ) as (s & Hs' & Hb).
      rewrite Hb in *. simpl in *.
      repeat split; auto.
      all: try (intros _; apply Hd; left; by eexists).
      all: destruct Hs as [Hs|Hs]; destruct Hs' as [Hs'|Hs'];
        rewrite ?Hs, ?Hs'; auto.
    + rewrite plan_block_other in * by done.
      repeat split; auto.
      intros [?|Hl]; apply Hd; [by left|].
      apply elem_of_cons in Hl as [?|?]; [done|by right].
Qed.

(** The store a construction returns is the one the planner leaves. *)
Lemma init_planner (cfg : list loc) (σ σ' : store)
    (num_classes in_chans output_stride : Z) (act_layer : act_kind)
    (norm_layer : norm_kind) (norm_kwargs : option kwargs) (drop_rate : Q)
    (global_pool : string) (m : t) :
  init cfg σ num_classes in_chans output_stride act_layer norm_layer
    norm_kwargs drop_rate global_pool = Ok (m, σ') →
  σ' = (plan_run output_stride cfg (planner_init, σ)).2 ∧
  ∃ entries,
    feature_info m =
    entries ++
    [mk_feature_info (num_features m)
       (curr_stride (plan_run output_stride cfg (planner_init, σ)).1)
       ("blocks." +:+ pretty (Z.of_nat (length (blocks m)) - 1))].
Proof.
  intros (_ & s & nf & Hloop & _ & -> & <- & -> & -> & _)%init_inv.
  apply (loop_ok _ _ _ _ σ cfg 0) in Hloop as (Hplan & _); [|done].
  cbn [loop_start l_planner l_store] in Hplan. rewrite <- Hplan.
  split; [done|]. by eexists.
Qed.

(** X1.  Construction writes to the dicts it is given and to no others: a
    dict that is not in the list is returned as it was; in every dict the
    channels, the padding and the two flags are untouched and the stride is
    the declared one or 1; every listed dict ends up with a dilation key. *)
Theorem init_store_frame (cfg : list loc) (σ σ' : store)
    (num_classes in_chans output_stride : Z) (act_layer : act_kind)
    (norm_layer : norm_kind) (norm_kwargs : option kwargs) (drop_rate : Q)
    (global_pool : string) (m : t) :
  init cfg σ num_classes in_chans output_stride act_layer norm_layer
    norm_kwargs drop_rate global_pool = Ok (m, σ') →
  (∀ l, l ∉ cfg → σ' l = σ l) ∧
  (∀ l, BlockCfg.in_chs (σ' l) = BlockCfg.in_chs (σ l) ∧
        BlockCfg.out_chs (σ' l) = BlockCfg.out_chs (σ l) ∧
        BlockCfg.pad_type (σ' l) = BlockCfg.pad_type (σ l) ∧
        BlockCfg.start_with_relu (σ' l) = BlockCfg.start_with_relu (σ l) ∧
        BlockCfg.no_skip (σ' l) = BlockCfg.no_skip (σ l) ∧
        (BlockCfg.stride (σ' l) = BlockCfg.stride (σ l) ∨
         BlockCfg.stride (σ' l) = 1)) ∧
  (∀ l, l ∈ cfg → is_Some (BlockCfg.dilation (σ' l))).
Proof.
  intros [-> _]%init_planner. split; [|split].
  - intros l Hl. by apply plan_run_other.
  - intros l.
    destruct (plan_run_keys output_stride cfg planner_init σ l)
      as (? & ? & ? & ? & ? & ? & _).
    done.
  - intros l Hl.
    destruct (plan_run_keys output_stride cfg planner_init σ l)
      as (_ & _ & _ & _ & _ & _ & Hd).
    apply Hd. by right.
Qed.

Lemma init_store_frame_witness :
  ∃ m σ',
    xception41 1000 3 16 0%Q "avg" = Ok (m, σ') ∧
    (∀ l, l ∉ xception41_block_cfg → σ' l = alloc xception41_dicts l).
Proof.
  assert (∃ r, xception41 1000 3 16 0%Q "avg" = Ok r) as [[m σ'] Hx].
  { vm_compute. eexists. reflexivity. }
  exists m, σ'.
  exact (conj Hx (proj1 (init_store_frame _ _ _ _ _ _ _ _ _ _ _ _ Hx))).
Defined.

(** ** Stride times dilation *)

Lemma plan_run_area (output_stride : Z) (σ0 : store) (cfg : list loc) :
  ∀ (p : planner) (σ : store),
    let p' := (plan_run output_stride cfg (p, σ)).1 in
    curr_stride p' * curr_dilation p' =
    curr_stride p * curr_dilation p *
    product (filter (λ s, 1 < s) (found <$> outcomes output_stride σ0 cfg p σ)).
Proof.
  induction cfg as [|b cfg IH]; intros p σ; cbv zeta.
  - unfold product. simpl. lia.
  - rewrite plan_run_cons, outcomes_cons. cbv zeta.
    rewrite IH. rewrite fmap_cons. cbn [found].
    rewrite plan_block_cases. cbv zeta.
    destruct (Z.gtb_spec (BlockCfg.stride (σ b)) 1) as [H1|H1].
    + rewrite filter_cons_True by done. rewrite product_cons.
      destruct (_ >? output_stride); simpl; lia.
    + rewrite filter_cons_False by lia. simpl. lia.
Qed.

Lemma outcomes_found_nodup (output_stride : Z) (σ0 : store) (cfg : list loc) :
  ∀ (p : planner) (σ : store),
    NoDup cfg →
    (∀ l, l ∈ cfg → BlockCfg.stride (σ l) = BlockCfg.stride (σ0 l)) →
    found <$> outcomes output_stride σ0 cfg p σ =
    (λ b, BlockCfg.stride (σ0 b)) <$> cfg.
Proof.
  induction cfg as [|b cfg IH]; intros p σ Hnd Hsame; [done|].
  apply NoDup_cons in Hnd as [Hnotin Hnd].
  rewrite outcomes_cons. cbv zeta. rewrite !fmap_cons. cbn [found].
  rewrite (Hsame b) by apply list_elem_of_here.
  f_equal. apply IH; [done|]. intros l Hl.
  rewrite plan_block_other by (intros ->; done).
  apply Hsame. by apply list_elem_of_further.
Qed.

Lemma product_filter_ge_one (zs : list Z) :
  Forall (λ z, 1 ≤ z) zs → product (filter (λ s, 1 < s) zs) = product zs.
Proof.
  induction 1 as [|z zs Hz _ IH]; [done|].
  destruct (decide (1 < z)).
  - rewrite filter_cons_True by done. by rewrite !product_cons, IH.
  - rewrite filter_cons_False by done. rewrite product_cons, IH.
    assert (z = 1) as -> by lia. lia.
Qed.

(** X2.  Whatever the target and the list, the running stride times the
    running dilation is twice the product of the strides above one that the
    planner found: a stride is either taken or turned into dilation, never
    lost.  When no dict is listed twice and every declared stride is at
    least 1, this is twice the product of the declared strides. *)
Theorem stride_times_dilation (output_stride : Z) (cfg : list loc) (σ : store) :
  let p := (plan_run output_stride cfg (planner_init, σ)).1 in
  curr_stride p * curr_dilation p =
    2 * product (filter (λ s, 1 < s)
                   (found <$> outcomes output_stride σ cfg planner_init σ)) ∧
  (NoDup cfg → (∀ b, b ∈ cfg → 1 ≤ BlockCfg.stride (σ b)) →
   curr_stride p * curr_dilation p =
     2 * product ((λ b, BlockCfg.stride (σ b)) <$> cfg)).
Proof.
  intros p. subst p.
  pose proof (plan_run_area output_stride σ cfg planner_init σ) as Harea.
  cbv zeta in Harea. cbn [planner_init curr_stride curr_dilation] in Harea.
  split; [lia|].
  intros Hnd Hge. rewrite Harea.
  rewrite (outcomes_found_nodup _ σ) by done.
  rewrite product_filter_ge_one; [lia|].
  apply Forall_fmap, Forall_forall. intros b Hb. simpl. by apply Hge.
Qed.

Lemma stride_times_dilation_witness :
  let σ := alloc xception41_dicts in
  let cfg := [0; 1; 2; 3; 4; 5]%nat in
  let p := (plan_run 8 cfg (planner_init, σ)).1 in
  curr_stride p * curr_dilation p =
  2 * product ((λ b, BlockCfg.stride (σ b)) <$> cfg).
Proof.
  intros σ cfg p.
  assert (Hnd : NoDup cfg) by (by apply (bool_decide_unpack _)).
  assert (Hge : ∀ b, b ∈ cfg → 1 ≤ BlockCfg.stride (σ b)).
  { intros b Hb.
    repeat (apply elem_of_cons in Hb as [->|Hb]); try (vm_compute; discriminate).
    by apply elem_of_nil in Hb. }
  exact (proj2 (stride_times_dilation 8 cfg σ) Hnd Hge).
Defined.

(** ** Building twice from the same dicts *)

Lemma plan_rerun (output_stride : Z) (cfg : list loc) :
  ∀ (p q : planner) (σ τ : store),
    NoDup cfg →
    curr_stride q = curr_stride p →
    (∀ l, l ∈ cfg →
       BlockCfg.stride (τ l) =
       BlockCfg.stride ((plan_run output_stride cfg (p, σ)).2 l)) →
    let r2 := plan_run output_stride cfg (q, τ) in
    curr_stride r2.1 = curr_stride (plan_run output_stride cfg (p, σ)).1 ∧
    curr_dilation r2.1 = curr_dilation q ∧
    ∀ l, BlockCfg.stride (r2.2 l) = BlockCfg.stride (τ l).
Proof.
  induction cfg as [|b cfg IH]; intros p q σ τ Hnd Hcs Hτ; cbv zeta; [done|].
  apply NoDup_cons in Hnd as [Hnotin Hnd].
  rewrite !plan_run_cons.
  assert (Hb : BlockCfg.stride (τ b) =
               BlockCfg.stride ((plan_block output_stride b p σ).2 b)).
  { rewrite (Hτ b) by apply list_elem_of_here.
    rewrite plan_run_cons. by rewrite plan_run_other. }
  assert (Hstep :
    curr_stride (plan_block output_stride b q τ).1.2 =
      curr_stride (plan_block output_stride b p σ).1.2 ∧
    curr_dilation (plan_block output_stride b q τ).1.2 = curr_dilation q ∧
    BlockCfg.stride ((plan_block output_stride b q τ).2 b) =
      BlockCfg.stride (τ b)).
  { revert Hb. rewrite !plan_block_cases. cbv zeta. rewrite Hcs.
    destruct (Z.gtb_spec (BlockCfg.stride (σ b)) 1) as [H1|H1];
      [destruct (Z.gtb_spec (curr_stride p * BlockCfg.stride (σ b))
                   output_stride) as [H2|H2]|];
      simpl; rewrite !fn_lookup_insert; simpl; intros Hb.
    - rewrite Hb. simpl. by rewrite fn_lookup_insert.
    - rewrite Hb.
      destruct (Z.gtb_spec (BlockCfg.stride (σ b)) 1); [|lia].
      destruct (Z.gtb_spec (curr_stride p * BlockCfg.stride (σ b))
                  output_stride); [lia|].
      simpl. by rewrite fn_lookup_insert.
    - rewrite Hb.
      destruct (Z.gtb_spec (BlockCfg.stride (σ b)) 1); [lia|].
      simpl. by rewrite fn_lookup_insert. }
  destruct Hstep as (Hs1 & Hd1 & Hst1).
  assert (Hsame : ∀ l, BlockCfg.stride ((plan_block output_stride b q τ).2 l) =
                       BlockCfg.stride (τ l)).
  { intros l. destruct (decide (l = b)) as [->|Hne]; [done|].
    by rewrite plan_block_other. }
  specialize (IH (plan_block output_stride b p σ).1.2
                 (plan_block output_stride b q τ).1.2
                 (plan_block output_stride b p σ).2
                 (plan_block output_stride b q τ).2 Hnd Hs1).
  cbv zeta in IH. destruct IH as (Hcs' & Hcd' & Hst').
  - intros l Hl. rewrite Hsame. rewrite (Hτ l) by by apply list_elem_of_further.
    by rewrite plan_run_cons.
  - split; [done|]. split; [by rewrite Hcd'|].
    intros l. by rewrite Hst', Hsame.
Qed.

(** The second run of the planner over dicts the first has written to. *)
Lemma second_plan_has_no_dilation (output_stride : Z) (cfg : list loc)
    (σ : store) :
  NoDup cfg →
  let first := plan_run output_stride cfg (planner_init, σ) in
  let second := plan_run output_stride cfg (planner_init, first.2) in
  curr_stride second.1 = curr_stride first.1 ∧
  curr_dilation second.1 = 1.
Proof.
  intros Hnd first second.
  destruct (plan_rerun output_stride cfg planner_init planner_init σ first.2
              Hnd eq_refl) as (H1 & H2 & H3); [done|].
  done.
Qed.

Lemma plan_run_app (output_stride : Z) (pre post : list loc)
    (ps : planner * store) :
  plan_run output_stride (pre ++ post) ps =
  plan_run output_stride post (plan_run output_stride pre ps).
Proof. unfold plan_run. by rewrite foldl_app. Qed.

Lemma plan_run_dilation_le (output_stride : Z) (post : list loc) :
  ∀ ps : planner * store,
    0 < curr_stride ps.1 → 0 < curr_dilation ps.1 →
    curr_dilation ps.1 ≤ curr_dilation (plan_run output_stride post ps).1.
Proof.
  induction post as [|b post IH] using rev_ind; intros ps Hs Hd; [done|].
  rewrite plan_run_snoc.
  destruct (plan_run_positive output_stride post ps Hs Hd) as [Hs' Hd'].
  pose proof (plan_step_grows output_stride b _ Hs' Hd') as (_ & Hle & _).
  specialize (IH ps Hs Hd). lia.
Qed.

(** ** The blocks and the feature entries of a build *)

Lemma module_args_cons (output_stride : Z) (b : loc) (cfg : list loc)
    (p : planner) (σ : store) :
  let r := plan_block output_stride b p σ in
  module_args output_stride (b :: cfg) p σ =
  r.2 b :: module_args output_stride cfg r.1.2 r.2.
Proof. simpl. by destruct (plan_block _ _ _ _) as [[??]?]. Qed.

Lemma plan_block_keys (output_stride : Z) (b l : loc) (p : planner) (σ : store) :
  let σ' := (plan_block output_stride b p σ).2 in
  BlockCfg.in_chs (σ' l) = BlockCfg.in_chs (σ l) ∧
  BlockCfg.out_chs (σ' l) = BlockCfg.out_chs (σ l) ∧
  BlockCfg.pad_type (σ' l) = BlockCfg.pad_type (σ l) ∧
  BlockCfg.start_with_relu (σ' l) = BlockCfg.start_with_relu (σ l) ∧
  BlockCfg.no_skip (σ' l) = BlockCfg.no_skip (σ l).
Proof.
  cbv zeta. destruct (decide (l = b)) as [->|Hne].
  - destruct (plan_block_dict output_stride b p σ) as (s & _ & ->). done.
  - by rewrite plan_block_other.
Qed.

(** The dict handed over for block [k] is the listed one with the stride
    of the planner's outcome and the running dilation from before the
    block. *)
Lemma module_args_lookup (output_stride : Z) (σ0 : store) (cfg : list loc) :
  ∀ (p : planner) (σ : store) (k : nat) (b : loc),
    cfg !! k = Some b →
    ∃ d o,
      module_args output_stride cfg p σ !! k = Some d ∧
      outcomes output_stride σ0 cfg p σ !! k = Some o ∧
      BlockCfg.stride d = effective o ∧
      BlockCfg.dilation d = effective_dilation o ∧
      effective_dilation o =
        Some (curr_dilation (plan_run output_stride (take k cfg) (p, σ)).1) ∧
      flagged o = (found o >? 1) ∧
      BlockCfg.in_chs d = BlockCfg.in_chs (σ b) ∧
      BlockCfg.out_chs d = BlockCfg.out_chs (σ b) ∧
      BlockCfg.pad_type d = BlockCfg.pad_type (σ b) ∧
      BlockCfg.start_with_relu d = BlockCfg.start_with_relu (σ b) ∧
      BlockCfg.no_skip d = BlockCfg.no_skip (σ b).
Proof.
  induction cfg as [|b0 cfg IH]; intros p σ k b Hk; [done|].
  rewrite module_args_cons, outcomes_cons. cbv zeta.
  destruct k as [|k]; simpl in Hk.
  - injection Hk as ->. eexists _, _. split; [done|]. split; [done|].
    cbn [effective effective_dilation flagged found take].
    destruct (plan_block_keys output_stride b b p σ) as (? & ? & ? & ? & ?).
    destruct (plan_block_dict output_stride b p σ) as (s & _ & Hb).
    split; [done|]. split; [done|]. split; [by rewrite Hb|].
    split; [|done].
    rewrite plan_block_cases. cbv zeta. by repeat case_match.
  - destruct (IH (plan_block output_stride b0 p σ).1.2
                (plan_block output_stride b0 p σ).2 k b Hk)
      as (d & o & Hd & Ho & Hs & Hdil & Hrun & Hf & Hi & Hoc & Hp & Hr & Hn).
    exists d, o. split; [done|]. split; [done|].
    destruct (plan_block_keys output_stride b0 b p σ) as (? & ? & ? & ? & ?).
    cbn [take]. rewrite plan_run_cons.
    repeat split; congruence.
Qed.

Lemma plan_block_grows (output_stride : Z) (b : loc) (p : planner) (σ : store) :
  0 < curr_stride p → 0 < curr_dilation p →
  let p' := (plan_block output_stride b p σ).1.2 in
  0 < curr_stride p' ∧ 0 < curr_dilation p' ∧ curr_stride p ≤ curr_stride p'.
Proof.
  intros Hs Hd.
  pose proof (plan_step_grows output_stride b (p, σ) Hs Hd) as (H1 & H2 & _).
  rewrite plan_step_eq in H1, H2. simpl in *. lia.
Qed.

(** A run of the loop that reaches the end, block by block: the modules it
    appends and the feature entries it records. *)
Lemma loop_trace (output_stride : Z) (act_layer : act_kind)
    (norm_layer : norm_kind) (norm_kwargs : kwargs) (σ0 : store)
    (cfg : list loc) :
  ∀ (i : nat) (s s' : loop_state),
    (l_blocks s).*1 = pretty <$> seq 0 i →
    0 < curr_stride (l_planner s) → 0 < curr_dilation (l_planner s) →
    for_each (loop_body output_stride act_layer norm_layer norm_kwargs)
      (zip (seq i (length cfg)) cfg) s = Ok s' →
    curr_stride (l_planner s) ≤ curr_stride (l_planner s') ∧
    ∃ ms es,
      l_blocks s' = l_blocks s ++ zip (pretty <$> seq i (length cfg)) ms ∧
      Forall2 (λ d m, XceptionModule_of d act_layer norm_layer norm_kwargs = Ok m)
        (module_args output_stride cfg (l_planner s) (l_store s)) ms ∧
      l_feature_info s' = l_feature_info s ++ es ∧
      Forall (λ e, curr_stride (l_planner s) ≤ reduction e ≤
                   curr_stride (l_planner s')) es ∧
      StronglySorted Z.le (reduction <$> es) ∧
      Forall (λ e, ∃ k blk o,
                ms !! k = Some blk ∧
                outcomes output_stride σ0 cfg (l_planner s) (l_store s) !! k
                  = Some o ∧
                flagged o = true ∧
                module e = "blocks." +:+ pretty (i + k)%nat +:+ ".stack.act2" ∧
                num_chs e = XceptionModule.out_channels blk) es ∧
      l_num_features s' =
        match last ms with
        | Some m => Some (XceptionModule.out_channels m)
        | None => l_num_features s
        end.
Proof.
  induction cfg as [|b cfg IH]; intros i s s' Hnames Hs Hd Hrun.
  - simpl in Hrun. injection Hrun as <-. split; [done|].
    exists [], []. rewrite !app_nil_r. repeat split; try done; constructor.
  - cbn [length seq zip zip_with for_each] in Hrun.
    pose proof (loop_body_step output_stride act_layer norm_layer norm_kwargs
                  i b s Hnames) as Hstep.
    cbv zeta in Hstep.
    destruct (chs_valid (BlockCfg.out_chs (l_store s b)));
      [|by rewrite Hstep in Hrun].
    destruct Hstep as (m & Hm & _ & Hbody). rewrite Hbody in Hrun.
    cbn [mbind result_bind] in Hrun.
    destruct (plan_block_grows output_stride b (l_planner s) (l_store s) Hs Hd)
      as (Hs1 & Hd1 & Hle1).
    apply (IH (S i)) in Hrun; [|by apply names_snoc|done|done]. clear IH.
    cbn [l_planner l_store l_blocks l_feature_info l_num_features] in Hrun.
    destruct Hrun as (Hle & ms & es & Hblocks & Hargs & Hfi & Hbound & Hsorted
                      & Hnamed & Hnum).
    split; [lia|].
    set (r := plan_block output_stride b (l_planner s) (l_store s)) in *.
    exists (m :: ms),
      ((if r.1.1
        then [mk_feature_info (XceptionModule.out_channels m)
                (curr_stride r.1.2)
                ("blocks." +:+ pretty i +:+ ".stack.act2")]
        else []) ++ es).
    split; [|split; [|split; [|split; [|split; [|split]]]]].
    + rewrite Hblocks, <- app_assoc. done.
    + rewrite module_args_cons. by constructor.
    + rewrite Hfi. destruct r.1.1; by rewrite <- ?app_assoc.
    + apply Forall_app. split.
      * destruct r.1.1; constructor; [|done]. simpl. lia.
      * eapply Forall_impl; [exact Hbound|]. simpl. intros e ?. lia.
    + rewrite fmap_app.
      assert (Htail : Forall (Z.le (curr_stride r.1.2)) (reduction <$> es)).
      { apply Forall_fmap. eapply Forall_impl; [exact Hbound|].
        simpl. intros e ?. lia. }
      destruct r.1.1; [|done]. simpl. by constructor.
    + rewrite outcomes_cons. cbv zeta. fold r.
      apply Forall_app. split.
      * destruct r.1.1 eqn:Hf; constructor; [|done].
        exists 0%nat, m. eexists. split; [done|]. split; [done|].
        split; [done|]. by rewrite Nat.add_0_r.
      * eapply Forall_impl; [exact Hnamed|]. simpl.
        intros e (k & blk & o & Hk & Ho & Hflag & Hmod & Hchs).
        exists (S k), blk, o. rewrite Nat.add_succ_r. done.
    + rewrite Hnum. destruct ms as [|m' ms']; [done|].
      change (last (m :: m' :: ms')) with (last (m' :: ms')).
      destruct (last (m' :: ms')) eqn:Hl; [done|].
      by apply last_None in Hl.
Qed.

Lemma module_args_length (output_stride : Z) (cfg : list loc) :
  ∀ (p : planner) (σ : store),
    length (module_args output_stride cfg p σ) = length cfg.
Proof.
  induction cfg as [|b cfg IH]; intros p σ; [done|].
  rewrite module_args_cons. cbv zeta. simpl. by rewrite IH.
Qed.

Lemma lookup_named (A : Type) (ms : list A) (n k : nat) (m : A) :
  length ms = n → ms !! k = Some m →
  zip (pretty <$> seq 0 n) ms !! k = Some (pretty k, m).
Proof.
  intros Hlen Hk. apply lookup_zip_with_Some. exists (pretty k), m.
  split; [done|]. split; [|done].
  rewrite list_lookup_fmap, lookup_seq_lt; [done|].
  apply lookup_lt_Some in Hk. lia.
Qed.

(** A construction that returns, block by block. *)
Lemma init_trace (cfg : list loc) (σ σ' : store)
    (num_classes in_chans output_stride : Z) (act_layer : act_kind)
    (norm_layer : norm_kind) (norm_kwargs : option kwargs) (drop_rate : Q)
    (global_pool : string) (m : t) :
  init cfg σ num_classes in_chans output_stride act_layer norm_layer
    norm_kwargs drop_rate global_pool = Ok (m, σ') →
  let final := (plan_run output_stride cfg (planner_init, σ)).1 in
  2 ≤ curr_stride final ≤ output_stride ∧
  ∃ ms es last_block,
    length ms = length cfg ∧
    blocks m = zip (pretty <$> seq 0 (length cfg)) ms ∧
    Forall2 (λ d blk, XceptionModule_of d act_layer norm_layer
                        (kwargs_or_empty norm_kwargs) = Ok blk)
      (module_args output_stride cfg planner_init σ) ms ∧
    last ms = Some last_block ∧
    num_features m = XceptionModule.out_channels last_block ∧
    head m = ClassifierHead.init (num_features m) num_classes global_pool
               drop_rate ∧
    feature_info m =
      mk_feature_info 64 2 "stem.1" :: es ++
      [mk_feature_info (num_features m) (curr_stride final)
         ("blocks." +:+ pretty (Z.of_nat (length cfg) - 1))] ∧
    Forall (λ e, 2 ≤ reduction e ≤ curr_stride final) es ∧
    StronglySorted Z.le (reduction <$> es) ∧
    Forall (λ e, ∃ k blk o,
              ms !! k = Some blk ∧
              outcomes output_stride σ cfg planner_init σ !! k = Some o ∧
              flagged o = true ∧
              module e = "blocks." +:+ pretty k +:+ ".stack.act2" ∧
              num_chs e = XceptionModule.out_channels blk) es.
Proof.
  intros (Hos & s & nf & Hloop & Hnf & _ & Hnum & Hblocks & Hfi & Hhead)%init_inv
    final.
  pose proof Hloop as Hplan.
  apply (loop_ok _ _ _ _ σ cfg 0) in Hplan as (Hplan & _); [|done].
  apply (loop_trace _ _ _ _ σ cfg 0) in Hloop
    as (Hge & ms & es & Hms & Hargs & Hes & Hbound & Hsorted & Hnamed & Hlast);
    [|done|done|done].
  cbn [loop_start l_planner l_store l_blocks l_feature_info l_num_features
       app] in *.
  assert (Hfinal : l_planner s = final).
  { subst final. by rewrite <- Hplan. }
  assert (Hlen : length ms = length cfg).
  { apply Forall2_length in Hargs. by rewrite module_args_length in Hargs. }
  rewrite Hnf in Hlast.
  destruct (last ms) as [last_block|] eqn:Hl; [|done].
  injection Hlast as Hlast.
  split.
  { rewrite <- Hfinal. split; [done|]. rewrite Hfinal. subst final.
    apply plan_run_bounded; simpl; try lia.
    by apply valid_output_stride_ge. }
  exists ms, es, last_block.
  split; [done|]. split; [by rewrite Hblocks, Hms|]. split; [done|].
  split; [done|]. split; [by rewrite Hnum|]. split; [by rewrite Hhead, Hnum|].
  split.
  { rewrite Hfi, Hes, Hms, Hnum, Hfinal. simpl.
    rewrite length_zip_with, length_fmap, length_seq, Hlen, Nat.min_id.
    done. }
  rewrite Hfinal in Hbound. done.
Qed.

Lemma normalize_chs_last (out_chs : chs) (o0 o1 o2 : Z) :
  XceptionModule.normalize_out_chs out_chs = Ok [o0; o1; o2] →
  chs_last out_chs = Some o2.
Proof.
  destruct out_chs as [c|cs]; simpl.
  - by intros [= _ _ ->].
  - unfold XceptionModule.normalize_out_chs.
    destruct (bool_decide _); [|done]. simpl. by intros [= ->].
Qed.

(** Block [k] of a construction that returns: the module built from the
    listed dict with the effective stride of the planner and the running
    dilation from before the block. *)
Lemma init_block_at (cfg : list loc) (σ σ' : store)
    (num_classes in_chans output_stride : Z) (act_layer : act_kind)
    (norm_layer : norm_kind) (norm_kwargs : option kwargs) (drop_rate : Q)
    (global_pool : string) (m : t) (k : nat) (b : loc) :
  init cfg σ num_classes in_chans output_stride act_layer norm_layer
    norm_kwargs drop_rate global_pool = Ok (m, σ') →
  cfg !! k = Some b →
  ∃ blk o o0 o1 o2,
    blocks m !! k = Some (pretty k, blk) ∧
    outcomes output_stride σ cfg planner_init σ !! k = Some o ∧
    flagged o = (found o >? 1) ∧
    XceptionModule.normalize_out_chs (BlockCfg.out_chs (σ b)) =
      Ok [o0; o1; o2] ∧
    blk = built_module (BlockCfg.in_chs (σ b)) o0 o1 o2 (effective o)
            (curr_dilation
               (plan_run output_stride (take k cfg) (planner_init, σ)).1)
            (default EmptyString (BlockCfg.pad_type (σ b)))
            (default true (BlockCfg.start_with_relu (σ b)))
            (default false (BlockCfg.no_skip (σ b)))
            act_layer norm_layer (kwargs_or_empty norm_kwargs).
Proof.
  intros Hinit Hk.
  destruct (init_trace _ _ _ _ _ _ _ _ _ _ _ _ Hinit)
    as (_ & ms & es & lb & Hlen & Hblocks & Hargs & _).
  destruct (module_args_lookup output_stride σ cfg planner_init σ k b Hk)
    as (d & o & Hd & Ho & Hs & Hdil & Hrun & Hf & Hi & Hoc & Hp & Hr & Hn).
  destruct (Forall2_lookup_l _ _ _ _ _ Hargs Hd) as (blk & Hblk & Hof).
  unfold XceptionModule_of in Hof.
  apply init_module_inv in Hof as (o0 & o1 & o2 & Hnorm & ->).
  eexists _, o, o0, o1, o2.
  split; [rewrite Hblocks; by apply lookup_named|].
  split; [done|]. split; [done|]. split; [by rewrite <- Hoc|].
  rewrite Hi, Hs, Hp, Hr, Hn, Hdil, Hrun. done.
Qed.

Lemma built_module_units (in_chs o0 o1 o2 stride dilation : Z)
    (pad_type : string) (start_with_relu no_skip : bool)
    (act_layer : act_kind) (norm_layer : norm_kind) (norm_kwargs : kwargs) :
  let m := built_module in_chs o0 o1 o2 stride dilation pad_type
             start_with_relu no_skip act_layer norm_layer norm_kwargs in
  unit_strides m = [Some 1; Some 1; Some stride] ∧
  unit_dilations m = [dilation; dilation; dilation] ∧
  block_stride m = stride ∧
  ("act2" ∈ (XceptionModule.stack m).*1 ↔ start_with_relu = true).
Proof.
  cbv zeta. destruct start_with_relu; repeat split; try done.
  - intros _. simpl. set_solver.
  - simpl. intros H. repeat (apply elem_of_cons in H as [H|H]; [done|]).
    by apply elem_of_nil in H.
Qed.

(** X4.  Every block of a construction that returns is built from the dict
    listed at its position with the planner's decision for that position:
    its input channels and [no_skip] are those of the dict, its output
    channels the last entry of the dict's [out_chs], all three units are
    dilated by the running dilation from before the block, and only the
    third unit carries the effective stride. *)
Theorem blocks_follow_plan (cfg : list loc) (σ σ' : store)
    (num_classes in_chans output_stride : Z) (act_layer : act_kind)
    (norm_layer : norm_kind) (norm_kwargs : option kwargs) (drop_rate : Q)
    (global_pool : string) (m : t) (k : nat) (b : loc) :
  init cfg σ num_classes in_chans output_stride act_layer norm_layer
    norm_kwargs drop_rate global_pool = Ok (m, σ') →
  cfg !! k = Some b →
  ∃ blk o,
    blocks m !! k = Some (pretty k, blk) ∧
    outcomes output_stride σ cfg planner_init σ !! k = Some o ∧
    XceptionModule.in_channels blk = BlockCfg.in_chs (σ b) ∧
    Some (XceptionModule.out_channels blk) =
      chs_last (BlockCfg.out_chs (σ b)) ∧
    XceptionModule.no_skip blk = default false (BlockCfg.no_skip (σ b)) ∧
    unit_strides blk = [Some 1; Some 1; Some (effective o)] ∧
    let d := curr_dilation
               (plan_run output_stride (take k cfg) (planner_init, σ)).1 in
    effective_dilation o = Some d ∧
    unit_dilations blk = [d; d; d].
Proof.
  intros Hinit Hk.
  destruct (init_block_at _ _ _ _ _ _ _ _ _ _ _ _ k b Hinit Hk)
    as (blk & o & o0 & o1 & o2 & Hblk & Ho & _ & Hnorm & ->).
  eexists _, o. split; [exact Hblk|]. split; [done|].
  split; [done|]. split; [by rewrite (normalize_chs_last _ _ _ _ Hnorm)|].
  split; [done|].
  match goal with
  | |- context [built_module ?a ?b ?c ?d ?e ?f ?g ?h ?i ?j ?k ?l] =>
      destruct (built_module_units a b c d e f g h i j k l) as (Hs & Hd & _)
  end.
  split; [done|]. cbv zeta. split; [|done].
  destruct (module_args_lookup output_stride σ cfg planner_init σ k b Hk)
    as (d' & o' & _ & Ho' & _ & _ & Hrun & _).
  rewrite Ho in Ho'. injection Ho' as <-. done.
Qed.

Lemma blocks_follow_plan_witness :
  ∃ m σ' blk,
    xception41 1000 3 8 0%Q "avg" = Ok (m, σ') ∧
    blocks m !! 12%nat = Some ("12", blk) ∧
    XceptionModule.in_channels blk = 1024 ∧
    XceptionModule.no_skip blk = true.
Proof.
  assert (∃ r, xception41 1000 3 8 0%Q "avg" = Ok r) as [[m σ'] Hx].
  { vm_compute. eexists. reflexivity. }
  assert (Hk : xception41_block_cfg !! 12%nat = Some 5%nat) by reflexivity.
  destruct (blocks_follow_plan _ _ _ _ _ _ _ _ _ _ _ _ 12%nat 5%nat Hx Hk)
    as (blk & o & Hblk & _ & Hin & _ & Hns & _).
  exists m, σ', blk. exact (conj Hx (conj Hblk (conj Hin Hns))).
Defined.

Lemma plan_run_stride_product (output_stride : Z) (cfg : list loc) :
  ∀ (p : planner) (σ : store),
    (∀ b, b ∈ cfg → 1 ≤ BlockCfg.stride (σ b)) →
    curr_stride (plan_run output_stride cfg (p, σ)).1 =
    curr_stride p *
    product (BlockCfg.stride <$> module_args output_stride cfg p σ).
Proof.
  induction cfg as [|b cfg IH]; intros p σ Hge.
  - unfold product. simpl. lia.
  - rewrite plan_run_cons, module_args_cons. cbv zeta.
    rewrite IH.
    + rewrite fmap_cons, product_cons.
      pose proof (Hge b (list_elem_of_here _ _)) as Hb.
      rewrite plan_block_cases. cbv zeta.
      destruct (Z.gtb_spec (BlockCfg.stride (σ b)) 1) as [H1|H1];
        [destruct (_ >? output_stride)|];
        simpl; rewrite !fn_lookup_insert; simpl.
      * lia.
      * ring.
      * assert (BlockCfg.stride (σ b) = 1) as -> by lia. lia.
    + intros l Hl. destruct (decide (l = b)) as [->|Hne].
      * destruct (plan_block_dict output_stride b p σ) as (s & Hs & ->).
        simpl. pose proof (Hge b (list_elem_of_here _ _)).
        destruct Hs as [->| ->]; lia.
      * rewrite plan_block_other by done.
        apply Hge. by apply list_elem_of_further.
Qed.

Lemma block_stride_of_args (act_layer : act_kind) (norm_layer : norm_kind)
    (norm_kwargs : kwargs) (ds : list BlockCfg.t) (ms : list XceptionModule.t) :
  Forall2 (λ d blk, XceptionModule_of d act_layer norm_layer norm_kwargs = Ok blk)
    ds ms →
  block_stride <$> ms = BlockCfg.stride <$> ds.
Proof.
  induction 1 as [|d blk ds ms Hof _ IH]; [done|].
  rewrite !fmap_cons, IH. f_equal.
  unfold XceptionModule_of in Hof.
  apply init_module_inv in Hof as (o0 & o1 & o2 & _ & ->).
  match goal with
  | |- context [built_module ?a ?b ?c ?d ?e ?f ?g ?h ?i ?j ?k ?l] =>
      by destruct (built_module_units a b c d e f g h i j k l) as (_ & _ & -> & _)
  end.
Qed.

(** X5.  When every listed dict declares a stride of at least 1, the
    reduction recorded in the trailing feature entry is the stride the
    built network really has: 2 for the stem times the strides of the
    blocks as built. *)
Theorem recorded_reduction_is_built_stride (cfg : list loc) (σ σ' : store)
    (num_classes in_chans output_stride : Z) (act_layer : act_kind)
    (norm_layer : norm_kind) (norm_kwargs : option kwargs) (drop_rate : Q)
    (global_pool : string) (m : t) :
  init cfg σ num_classes in_chans output_stride act_layer norm_layer
    norm_kwargs drop_rate global_pool = Ok (m, σ') →
  (∀ b, b ∈ cfg → 1 ≤ BlockCfg.stride (σ b)) →
  reduction <$> last (feature_info m) =
  Some (2 * product (block_stride <$> (blocks m).*2)).
Proof.
  intros Hinit Hge.
  destruct (init_trace _ _ _ _ _ _ _ _ _ _ _ _ Hinit)
    as (_ & ms & es & lb & Hlen & Hblocks & Hargs & _ & _ & _ & Hfi & _).
  rewrite Hfi, Hblocks.
  rewrite snd_zip by (rewrite length_fmap, length_seq; lia).
  rewrite (block_stride_of_args _ _ _ _ _ Hargs).
  pose proof (plan_run_stride_product output_stride cfg planner_init σ Hge)
    as Hp.
  cbn [planner_init curr_stride] in Hp. rewrite <- Hp.
  rewrite app_comm_cons, last_snoc. done.
Qed.

Lemma recorded_reduction_is_built_stride_witness :
  ∃ m σ',
    xception41 1000 3 16 0%Q "avg" = Ok (m, σ') ∧
    reduction <$> last (feature_info m) =
    Some (2 * product (block_stride <$> (blocks m).*2)).
Proof.
  assert (Hge : ∀ b, b ∈ xception41_block_cfg →
                     1 ≤ BlockCfg.stride (alloc xception41_dicts b)).
  { intros b Hb.
    repeat (apply elem_of_cons in Hb as [->|Hb]); try (vm_compute; discriminate).
    by apply elem_of_nil in Hb. }
  assert (∃ r, xception41 1000 3 16 0%Q "avg" = Ok r) as [[m σ'] Hx].
  { vm_compute. eexists. reflexivity. }
  exists m, σ'.
  exact (conj Hx (recorded_reduction_is_built_stride _ _ _ _ _ _ _ _ _ _ _ _
                    Hx Hge)).
Defined.

(** X6.  The reductions of the feature-info list never decrease along the
    list; they start at 2, the reduction of the stem, and stay within
    [output_stride]. *)
Theorem feature_reductions_sorted (cfg : list loc) (σ σ' : store)
    (num_classes in_chans output_stride : Z) (act_layer : act_kind)
    (norm_layer : norm_kind) (norm_kwargs : option kwargs) (drop_rate : Q)
    (global_pool : string) (m : t) :
  init cfg σ num_classes in_chans output_stride act_layer norm_layer
    norm_kwargs drop_rate global_pool = Ok (m, σ') →
  StronglySorted Z.le (reduction <$> feature_info m) ∧
  Forall (λ r, 2 ≤ r ≤ output_stride) (reduction <$> feature_info m).
Proof.
  intros Hinit.
  destruct (init_trace _ _ _ _ _ _ _ _ _ _ _ _ Hinit)
    as (Hfinal & ms & es & lb & _ & _ & _ & _ & _ & _ & Hfi & Hbound & Hsorted
        & _).
  rewrite Hfi. rewrite fmap_cons, fmap_app. cbn [fmap list_fmap reduction].
  assert (Hes : Forall (λ r, 2 ≤ r ≤ curr_stride
                   (plan_run output_stride cfg (planner_init, σ)).1)
                  (reduction <$> es)).
  { by apply Forall_fmap. }
  split.
  - apply StronglySorted_cons. split.
    + apply Forall_app. split.
      * eapply Forall_impl; [exact Hes|]. simpl. lia.
      * constructor; [lia|done].
    + apply StronglySorted_app_2; [|done|repeat constructor].
      intros x1 x2 Hx1 Hx2%list_elem_of_singleton. subst x2.
      rewrite Forall_forall in Hes. apply Hes in Hx1. lia.
  - constructor; [lia|]. apply Forall_app. split.
    + eapply Forall_impl; [exact Hes|]. simpl. lia.
    + constructor; [lia|done].
Qed.

Lemma feature_reductions_sorted_witness :
  ∃ m σ',
    xception41 1000 3 8 0%Q "avg" = Ok (m, σ') ∧
    reduction <$> feature_info m = [2; 4; 8; 8; 8; 8] ∧
    StronglySorted Z.le (reduction <$> feature_info m).
Proof.
  assert (∃ r, xception41 1000 3 8 0%Q "avg" = Ok r ∧
               reduction <$> feature_info r.1 = [2; 4; 8; 8; 8; 8])
    as [[m σ'] [Hx Hr]].
  { vm_compute. eexists. split; reflexivity. }
  exists m, σ'.
  exact (conj Hx (conj Hr
           (proj1 (feature_reductions_sorted _ _ _ _ _ _ _ _ _ _ _ _ Hx)))).
Defined.

(** X7.  Between the entry of the stem and the trailing one, every feature
    entry belongs to a block at which the planner found a stride above one:
    it is named [blocks.k.stack.act2] after the position [k] of that block
    and records the output channels of the block.  The child [act2] it
    names exists in the stack of the block unless the dict of the block
    sets [start_with_relu] to false. *)
Theorem block_entries_name_strided_blocks (cfg : list loc) (σ σ' : store)
    (num_classes in_chans output_stride : Z) (act_layer : act_kind)
    (norm_layer : norm_kind) (norm_kwargs : option kwargs) (drop_rate : Q)
    (global_pool : string) (m : t) :
  init cfg σ num_classes in_chans output_stride act_layer norm_layer
    norm_kwargs drop_rate global_pool = Ok (m, σ') →
  ∃ es trailing,
    feature_info m = mk_feature_info 64 2 "stem.1" :: es ++ [trailing] ∧
    Forall (λ e, ∃ k b blk o,
              cfg !! k = Some b ∧
              blocks m !! k = Some (pretty k, blk) ∧
              outcomes output_stride σ cfg planner_init σ !! k = Some o ∧
              1 < found o ∧
              module e = "blocks." +:+ pretty k +:+ ".stack.act2" ∧
              num_chs e = XceptionModule.out_channels blk ∧
              ("act2" ∈ (XceptionModule.stack blk).*1 ↔
               BlockCfg.start_with_relu (σ b) ≠ Some false)) es.
Proof.
  intros Hinit.
  destruct (init_trace _ _ _ _ _ _ _ _ _ _ _ _ Hinit)
    as (_ & ms & es & lb & Hlen & Hblocks & _ & _ & _ & _ & Hfi & _ & _
        & Hnamed).
  eexists es, _. split; [exact Hfi|].
  eapply Forall_impl; [exact Hnamed|]. simpl.
  intros e (k & blk & o & Hk & Ho & Hflag & Hmod & Hchs).
  assert (Hlt : (k < length cfg)%nat).
  { apply lookup_lt_Some in Hk. lia. }
  destruct (lookup_lt_is_Some_2 cfg k Hlt) as [b Hb].
  destruct (init_block_at _ _ _ _ _ _ _ _ _ _ _ _ k b Hinit Hb)
    as (blk' & o' & o0 & o1 & o2 & Hblk' & Ho' & Hf' & _ & Heq).
  rewrite Ho in Ho'. injection Ho' as <-.
  assert (Hblk : blocks m !! k = Some (pretty k, blk)).
  { rewrite Hblocks. by apply lookup_named. }
  rewrite Hblk in Hblk'. injection Hblk' as <-.
  exists k, b, blk, o. split; [done|]. split; [done|]. split; [done|].
  split; [rewrite Hf' in Hflag; lia|]. split; [done|]. split; [done|].
  rewrite Heq.
  match goal with
  | |- context [built_module ?a ?b ?c ?d ?e ?f ?g ?h ?i ?j ?k ?l] =>
      destruct (built_module_units a b c d e f g h i j k l) as (_ & _ & _ & ->)
  end.
  destruct (BlockCfg.start_with_relu (σ b)) as [[]|]; simpl; naive_solver.
Qed.

Lemma block_entries_name_strided_blocks_witness :
  ∃ m σ' es trailing,
    xception41 1000 3 32 0%Q "avg" = Ok (m, σ') ∧
    feature_info m = mk_feature_info 64 2 "stem.1" :: es ++ [trailing] ∧
    length es = 4%nat.
Proof.
  assert (∃ r, xception41 1000 3 32 0%Q "avg" = Ok r ∧
               length (feature_info r.1) = 6%nat) as [[m σ'] [Hx Hlen]].
  { vm_compute. eexists. split; reflexivity. }
  destruct (block_entries_name_strided_blocks _ _ _ _ _ _ _ _ _ _ _ _ Hx)
    as (es & trailing & Hfi & _).
  exists m, σ', es, trailing. split; [exact Hx|]. split; [exact Hfi|].
  simpl in Hlen. rewrite Hfi in Hlen. simpl in Hlen.
  rewrite length_app in Hlen. simpl in Hlen. lia.
Defined.

(** A flagged block built without leading activations: the entry recorded
    for it names a child its stack does not have. *)
Example entry_without_act2 :
  let σ := alloc [BlockCfg.mk 64 (ChsInt 128) 2 None None (Some false) None] in
  ∃ m σ' blk,
    init [0%nat] σ 1000 3 32 ReLU BatchNorm2d None 0%Q "avg" = Ok (m, σ') ∧
    module <$> feature_info m = ["stem.1"; "blocks.0.stack.act2"; "blocks.0"] ∧
    blocks m = [("0", blk)] ∧
    (XceptionModule.stack blk).*1 = ["conv1"; "conv2"; "conv3"].
Proof. vm_compute. eexists _, _, _. repeat split; reflexivity. Qed.

Lemma pretty_of_nat (k : nat) : pretty (Z.of_nat k) = pretty k.
Proof. by destruct k. Qed.

(** X8.  The last block decides the width of the head: [num_features] is
    the last entry of the [out_chs] of the last listed dict, the trailing
    feature entry records it together with the final running stride under
    the name of the last block, and the classifier is a linear layer from
    [num_features] to [num_classes] when [num_classes] is positive and the
    identity otherwise. *)
Theorem last_block_sets_num_features (cfg : list loc) (σ σ' : store)
    (num_classes in_chans output_stride : Z) (act_layer : act_kind)
    (norm_layer : norm_kind) (norm_kwargs : option kwargs) (drop_rate : Q)
    (global_pool : string) (m : t) :
  init cfg σ num_classes in_chans output_stride act_layer norm_layer
    norm_kwargs drop_rate global_pool = Ok (m, σ') →
  ∃ b blk,
    last cfg = Some b ∧
    last (blocks m) = Some (pretty (length cfg - 1)%nat, blk) ∧
    num_features m = XceptionModule.out_channels blk ∧
    chs_last (BlockCfg.out_chs (σ b)) = Some (num_features m) ∧
    last (feature_info m) =
      Some (mk_feature_info (num_features m)
              (curr_stride (plan_run output_stride cfg (planner_init, σ)).1)
              ("blocks." +:+ pretty (length cfg - 1)%nat)) ∧
    get_classifier m =
      (if num_classes >? 0 then Linear (num_features m) num_classes true
       else Identity).
Proof.
  intros Hinit.
  destruct (init_trace _ _ _ _ _ _ _ _ _ _ _ _ Hinit)
    as (_ & ms & es & lb & Hlen & Hblocks & _ & Hlast & Hnum & Hhead & Hfi & _).
  assert (Hne : (0 < length cfg)%nat).
  { rewrite <- Hlen. destruct ms; [done|simpl; lia]. }
  assert (Hk : ms !! (length cfg - 1)%nat = Some lb).
  { rewrite last_lookup in Hlast. rewrite <- Hlen.
    by replace (length ms - 1)%nat with (pred (length ms)) by lia. }
  destruct (lookup_lt_is_Some_2 cfg (length cfg - 1)%nat) as [b Hb]; [lia|].
  destruct (init_block_at _ _ _ _ _ _ _ _ _ _ _ _ _ b Hinit Hb)
    as (blk' & o & o0 & o1 & o2 & Hblk' & _ & _ & Hnorm & Heq).
  assert (Hblk : blocks m !! (length cfg - 1)%nat =
                 Some (pretty (length cfg - 1)%nat, lb)).
  { rewrite Hblocks. by apply lookup_named. }
  rewrite Hblk in Hblk'. injection Hblk' as <-.
  exists b, lb.
  split.
  { rewrite last_lookup.
    by replace (pred (length cfg)) with (length cfg - 1)%nat by lia. }
  split.
  { rewrite last_lookup.
    replace (pred (length (blocks m))) with (length cfg - 1)%nat; [done|].
    rewrite Hblocks, length_zip_with, length_fmap, length_seq. lia. }
  split; [done|].
  split.
  { rewrite (normalize_chs_last _ _ _ _ Hnorm), Hnum, Heq. done. }
  split.
  { rewrite Hfi, app_comm_cons, last_snoc.
    replace (Z.of_nat (length cfg) - 1) with (Z.of_nat (length cfg - 1)) by lia.
    by rewrite pretty_of_nat. }
  unfold get_classifier. rewrite Hhead. done.
Qed.

Lemma last_block_sets_num_features_witness :
  ∃ m σ',
    xception41 1000 3 32 0%Q "avg" = Ok (m, σ') ∧
    chs_last (BlockCfg.out_chs (alloc xception41_dicts 5%nat)) =
      Some (num_features m) ∧
    get_classifier m = Linear (num_features m) 1000 true.
Proof.
  assert (∃ r, xception41 1000 3 32 0%Q "avg" = Ok r) as [[m σ'] Hx].
  { vm_compute. eexists. reflexivity. }
  destruct (last_block_sets_num_features _ _ _ _ _ _ _ _ _ _ _ _ Hx)
    as (b & blk & Hb & _ & _ & Hchs & _ & Hfc).
  injection Hb as <-.
  exists m, σ'. exact (conj Hx (conj Hchs Hfc)).
Defined.

(** ** More on XceptionModule *)

(** X9.  Where the activations of a block sit.  With [start_with_relu] the
    stack alternates a ReLU and a unit, the first ReLU not in place and the
    other two in place, the units have no activation of their own, and
    [act_layer] is not used at all.  Without it the stack holds the three
    units only, and each applies [act_layer] in place after both of its
    batch norms. *)
Theorem activation_placement (in_chs : Z) (out_chs : chs) (stride dilation : Z)
    (pad_type : string) (start_with_relu no_skip : bool)
    (act_layer : act_kind) (norm_layer : norm_kind)
    (norm_kwargs : option kwargs) (m : XceptionModule.t) :
  XceptionModule.init in_chs out_chs stride dilation pad_type start_with_relu
    no_skip act_layer norm_layer norm_kwargs = Ok m →
  let units := convs (XceptionModule.stack m) in
  if start_with_relu then
    (XceptionModule.stack m).*1 =
      ["act1"; "conv1"; "act2"; "conv2"; "act3"; "conv3"] ∧
    acts (XceptionModule.stack m) =
      [mk_act ReLU false; mk_act ReLU true; mk_act ReLU true] ∧
    Forall (λ c, SeparableConv2d.act_dw c = None ∧
                 SeparableConv2d.act_pw c = None) units ∧
    XceptionModule.init in_chs out_chs stride dilation pad_type true
      no_skip ReLU norm_layer norm_kwargs = Ok m
  else
    (XceptionModule.stack m).*1 = ["conv1"; "conv2"; "conv3"] ∧
    acts (XceptionModule.stack m) = [] ∧
    Forall (λ c, SeparableConv2d.act_dw c = Some (mk_act act_layer true) ∧
                 SeparableConv2d.act_pw c = Some (mk_act act_layer true)) units.
Proof.
  intros Hinit. pose proof Hinit as Hinit'.
  apply init_module_inv in Hinit as (o0 & o1 & o2 & Hn & ->).
  destruct start_with_relu; cbv zeta.
  - split; [done|]. split; [done|]. split; [by repeat constructor|].
    by rewrite (init_built _ _ _ _ _ _ _ _ _ _ _ _ _ Hn).
  - split; [done|]. split; [done|]. by repeat constructor.
Qed.

Lemma activation_placement_witness :
  ∃ m,
    XceptionModule.init 1024 (ChsSeq [1536; 1536; 2048]) 1 2 EmptyString false
      true ReLU BatchNorm2d (Some preset_norm_kwargs) = Ok m ∧
    (XceptionModule.stack m).*1 = ["conv1"; "conv2"; "conv3"] ∧
    acts (XceptionModule.stack m) = [].
Proof.
  assert (∃ m, XceptionModule.init 1024 (ChsSeq [1536; 1536; 2048]) 1 2
                 EmptyString false true ReLU BatchNorm2d
                 (Some preset_norm_kwargs) = Ok m) as (m & Hm).
  { vm_compute. eexists. reflexivity. }
  destruct (activation_placement _ _ _ _ _ _ _ _ _ _ m Hm) as (Hn & Ha & _).
  exists m. exact (conj Hm (conj Hn Ha)).
Defined.

(** X10.  The [out_chs] of [XceptionModule].  An int stands for the triple
    that repeats it: the channel check turns [c] into [(c, c, c)] and the
    construction goes on exactly as for that triple.  A list or tuple of
    three entries passes the check as it is.  Whenever the construction
    returns, [out_channels] is the last entry of [out_chs] (the int itself
    for an int).  A list or tuple of any other length fails the check: the
    outcome is the assertion failure, raised before any layer is
    created. *)
Theorem out_chs_int_or_triple (in_chs : Z) (stride dilation : Z)
    (pad_type : string) (start_with_relu no_skip : bool)
    (act_layer : act_kind) (norm_layer : norm_kind)
    (norm_kwargs : option kwargs) :
  let build o :=
    XceptionModule.init in_chs o stride dilation pad_type start_with_relu
      no_skip act_layer norm_layer norm_kwargs in
  (∀ c, XceptionModule.normalize_out_chs (ChsInt c) = Ok [c; c; c] ∧
        build (ChsInt c) = build (ChsSeq [c; c; c])) ∧
  (∀ cs, length cs = 3%nat →
         XceptionModule.normalize_out_chs (ChsSeq cs) = Ok cs) ∧
  (∀ o m, build o = Ok m →
          chs_last o = Some (XceptionModule.out_channels m)) ∧
  (∀ cs, length cs ≠ 3%nat → build (ChsSeq cs) = Raise AssertionError).
Proof.
  cbv zeta. split; [|split; [|split]].
  - intros c. split; [done|].
    rewrite (init_built _ (ChsInt c) c c c) by done.
    rewrite (init_built _ (ChsSeq [c; c; c]) c c c) by done.
    done.
  - intros cs Hlen. unfold XceptionModule.normalize_out_chs.
    by rewrite bool_decide_eq_true_2.
  - intros o m (o0 & o1 & o2 & Hn & ->)%init_module_inv.
    by rewrite (normalize_chs_last _ _ _ _ Hn).
  - intros cs Hlen. apply init_invalid. simpl.
    by apply bool_decide_eq_false.
Qed.

(** ** The outcomes of a construction *)

(** X11.  An empty list of blocks is never built: the loop assigns nothing
    to [num_features], whose read for the trailing feature entry fails, so
    construction does not return.  A network that construction returns has
    at least one block, and comes from a valid [output_stride] and from
    dicts whose [out_chs] all passed the channel check. *)
Theorem init_outcomes (cfg : list loc) (σ σ' : store)
    (num_classes in_chans output_stride : Z) (act_layer : act_kind)
    (norm_layer : norm_kind) (norm_kwargs : option kwargs) (drop_rate : Q)
    (global_pool : string) (m : t) :
  init cfg σ num_classes in_chans output_stride act_layer norm_layer
    norm_kwargs drop_rate global_pool = Ok (m, σ') →
  cfg ≠ [] ∧
  blocks m ≠ [] ∧
  output_stride ∈ [8; 16; 32] ∧
  (∀ b, b ∈ cfg → chs_valid (BlockCfg.out_chs (σ b)) = true).
Proof.
  intros Hinit.
  pose proof (init_result cfg σ num_classes in_chans output_stride act_layer
                norm_layer norm_kwargs drop_rate global_pool) as Hres.
  cbv zeta in Hres. rewrite Hinit in Hres.
  destruct (bool_decide (output_stride ∈ [8; 16; 32])) eqn:Hos; [|done].
  apply bool_decide_eq_true in Hos.
  destruct (forallb _ cfg) eqn:Hall; [|done].
  destruct cfg as [|b cfg]; [done|].
  split; [done|]. split; [|split; [done|]].
  - apply init_inv in Hinit as (_ & s & nf & Hloop & _ & _ & _ & Hblocks & _).
    apply (loop_ok _ _ _ _ σ (b :: cfg) 0) in Hloop
      as (_ & (rest & Hrest & Hlen & _) & _); [|done].
    rewrite Hblocks, Hrest. cbn [loop_start l_blocks app].
    by destruct rest.
  - intros l Hl. rewrite forallb_forall in Hall.
    by apply Hall, list_elem_of_In.
Qed.

Lemma init_outcomes_witness :
  ∃ m σ',
    xception41 1000 3 32 0%Q "avg" = Ok (m, σ') ∧ blocks m ≠ [].
Proof.
  assert (∃ r, xception41 1000 3 32 0%Q "avg" = Ok r) as [[m σ'] Hx].
  { vm_compute. eexists. reflexivity. }
  destruct (init_outcomes _ _ _ _ _ _ _ _ _ _ _ _ Hx) as (_ & Hne & _).
  exists m, σ'. exact (conj Hx Hne).
Defined.

(** ** [reset_classifier] *)

(** X12.  What a reset keeps of the construction.  After
    [reset_classifier] on a constructed network, once or twice in a row,
    the attribute [num_classes] still holds the value the network was
    built with, whatever class count the reset was given; the new head has
    the drop rate of the construction and the pooling of the last reset,
    and its classifier goes from the [num_features] of the construction to
    the class count of the last reset, or is the identity when that count
    is not positive. *)
Theorem reset_classifier_keeps_construction (cfg : list loc) (σ σ' : store)
    (num_classes in_chans output_stride : Z) (act_layer : act_kind)
    (norm_layer : norm_kind) (norm_kwargs : option kwargs) (drop_rate : Q)
    (global_pool : string) (m : t) :
  init cfg σ num_classes in_chans output_stride act_layer norm_layer
    norm_kwargs drop_rate global_pool = Ok (m, σ') →
  ∀ n1 p1 n2 p2,
    let once := reset_classifier m n2 p2 in
    let twice := reset_classifier (reset_classifier m n1 p1) n2 p2 in
    let shape :=
      if n2 >? 0 then Linear (num_features m) n2 true else Identity in
    XceptionAligned.num_classes once = num_classes ∧
    XceptionAligned.num_classes twice = num_classes ∧
    ClassifierHead.drop_rate (head once) = drop_rate ∧
    ClassifierHead.drop_rate (head twice) = drop_rate ∧
    pool_type (ClassifierHead.global_pool (head once)) = p2 ∧
    pool_type (ClassifierHead.global_pool (head twice)) = p2 ∧
    get_classifier once = shape ∧
    get_classifier twice = shape.
Proof.
  intros Hinit.
  assert (Hm : XceptionAligned.num_classes m = num_classes ∧
               XceptionAligned.drop_rate m = drop_rate).
  { unfold init in Hinit.
    destruct (check _ _); [|done]. cbn [mbind result_bind] in Hinit.
    destruct (for_each _ _ _); [|done]. cbn [mbind result_bind] in Hinit.
    destruct (get_attr _); [|done]. cbn [mbind result_bind] in Hinit.
    by injection Hinit as <- _. }
  destruct Hm as [Hnc Hdr].
  intros n1 p1 n2 p2. cbv zeta.
  unfold get_classifier, reset_classifier, set_head. simpl.
  rewrite Hnc, Hdr. done.
Qed.

Lemma reset_classifier_keeps_construction_witness :
  ∃ m σ',
    xception41 1000 3 32 0%Q "avg" = Ok (m, σ') ∧
    XceptionAligned.num_classes (reset_classifier m 10 "max") = 1000 ∧
    get_classifier (reset_classifier m 10 "max") =
      Linear (num_features m) 10 true.
Proof.
  assert (∃ r, xception41 1000 3 32 0%Q "avg" = Ok r) as [[m σ'] Hx].
  { vm_compute. eexists. reflexivity. }
  destruct (reset_classifier_keeps_construction _ _ _ _ _ _ _ _ _ _ _ _ Hx
              0 "avg" 10 "max") as (Hnc & _ & _ & _ & _ & _ & Hfc & _).
  exists m, σ'. exact (conj Hx (conj Hnc Hfc)).
Defined.

Lemma out_chs_int_or_triple_witness :
  ∃ m, XceptionModule.init 728 (ChsSeq [728; 1024; 1024]) 2 1 EmptyString
         true false ReLU BatchNorm2d None = Ok m ∧
       chs_last (ChsSeq [728; 1024; 1024]) =
         Some (XceptionModule.out_channels m).
Proof.
  assert (∃ m, XceptionModule.init 728 (ChsSeq [728; 1024; 1024]) 2 1
                 EmptyString true false ReLU BatchNorm2d None = Ok m)
    as (m & Hm).
  { vm_compute. eexists. reflexivity. }
  exists m.
  exact (conj Hm
           (proj1 (proj2 (proj2
              (out_chs_int_or_triple 728 2 1 EmptyString true false ReLU
                 BatchNorm2d None))) _ m Hm)).
Defined.

(** ** Channel chaining *)

Lemma init_stem (cfg : list loc) (σ σ' : store)
    (num_classes in_chans output_stride : Z) (act_layer : act_kind)
    (norm_layer : norm_kind) (norm_kwargs : option kwargs) (drop_rate : Q)
    (global_pool : string) (m : t) :
  init cfg σ num_classes in_chans output_stride act_layer norm_layer
    norm_kwargs drop_rate global_pool = Ok (m, σ') →
  stem m = stem_of in_chans act_layer norm_layer (kwargs_or_empty norm_kwargs).
Proof.
  unfold init. intros Hinit.
  destruct (check _ _); [|done]. cbn [mbind result_bind] in Hinit.
  destruct (for_each _ _ _); [|done]. cbn [mbind result_bind] in Hinit.
  destruct (get_attr _); [|done]. cbn [mbind result_bind] in Hinit.
  by injection Hinit as <- _.
Qed.

Lemma chained_lookup (σ : store) (cfg : list loc) :
  ∀ (prev : Z),
    chained σ prev cfg = true →
    (∀ b, cfg !! 0%nat = Some b → BlockCfg.in_chs (σ b) = prev) ∧
    (∀ k b1 b2, cfg !! k = Some b1 → cfg !! S k = Some b2 →
       chs_last (BlockCfg.out_chs (σ b1)) = Some (BlockCfg.in_chs (σ b2))).
Proof.
  induction cfg as [|b cfg IH]; intros prev Hch; [done|].
  simpl in Hch. apply andb_true_iff in Hch as [Hin Hrest].
  apply Z.eqb_eq in Hin.
  destruct (chs_last (BlockCfg.out_chs (σ b))) as [o|] eqn:Hlast; [|done].
  destruct (IH o Hrest) as [Hfirst Hnext].
  split.
  - intros b0 [= <-]. done.
  - intros [|k] b1 b2 H1 H2; simpl in H1, H2.
    + injection H1 as <-. rewrite Hlast. f_equal. symmetry. by apply Hfirst.
    + by apply (Hnext k).
Qed.

(** X13.  The builder does not check that channels chain, but it keeps a
    chain that is there: if the first listed dict takes the 64 channels of
    the stem and every other one takes the channels the dict before it
    ends on, then in the built network the stem ends on 64 channels, the
    first block takes 64, and every block takes the channels the block
    before it produces. *)
Theorem chained_config_gives_chained_network (cfg : list loc) (σ σ' : store)
    (num_classes in_chans output_stride : Z) (act_layer : act_kind)
    (norm_layer : norm_kind) (norm_kwargs : option kwargs) (drop_rate : Q)
    (global_pool : string) (m : t) :
  init cfg σ num_classes in_chans output_stride act_layer norm_layer
    norm_kwargs drop_rate global_pool = Ok (m, σ') →
  chained σ 64 cfg = true →
  (λ nm, cba_out nm.2) <$> last (stem m) = Some 64 ∧
  (∃ blk, blocks m !! 0%nat = Some ("0", blk) ∧
          XceptionModule.in_channels blk = 64) ∧
  (∀ k n1 blk1 n2 blk2,
     blocks m !! k = Some (n1, blk1) → blocks m !! S k = Some (n2, blk2) →
     XceptionModule.in_channels blk2 = XceptionModule.out_channels blk1).
Proof.
  intros Hinit Hch.
  destruct (chained_lookup σ cfg 64 Hch) as [Hfirst Hnext].
  assert (Hlen : length (blocks m) = length cfg).
  { destruct (init_trace _ _ _ _ _ _ _ _ _ _ _ _ Hinit)
      as (_ & ms & es & lb & Hlen & Hblocks & _).
    rewrite Hblocks, length_zip_with, length_fmap, length_seq. lia. }
  assert (Hat : ∀ k b, cfg !! k = Some b →
            ∃ blk, blocks m !! k = Some (pretty k, blk) ∧
                   XceptionModule.in_channels blk = BlockCfg.in_chs (σ b) ∧
                   chs_last (BlockCfg.out_chs (σ b)) =
                     Some (XceptionModule.out_channels blk)).
  { intros k b Hk.
    destruct (init_block_at _ _ _ _ _ _ _ _ _ _ _ _ k b Hinit Hk)
      as (blk & o & o0 & o1 & o2 & Hblk & _ & _ & Hnorm & ->).
    eexists. split; [exact Hblk|]. split; [done|].
    by rewrite (normalize_chs_last _ _ _ _ Hnorm). }
  split; [|split].
  - by rewrite (init_stem _ _ _ _ _ _ _ _ _ _ _ _ Hinit).
  - destruct cfg as [|b cfg].
    + apply init_inv in Hinit as (_ & s & nf & Hloop & Hnf & _).
      simpl in Hloop. injection Hloop as <-. done.
    + destruct (Hat 0%nat b eq_refl) as (blk & Hblk & Hin & _).
      exists blk. split; [done|]. rewrite Hin. by apply Hfirst.
  - intros k n1 blk1 n2 blk2 H1 H2.
    destruct (lookup_lt_is_Some_2 cfg k) as [b1 Hb1].
    { apply lookup_lt_Some in H1. lia. }
    destruct (lookup_lt_is_Some_2 cfg (S k)) as [b2 Hb2].
    { apply lookup_lt_Some in H2. lia. }
    destruct (Hat k b1 Hb1) as (blk1' & Hblk1 & _ & Hout).
    destruct (Hat (S k) b2 Hb2) as (blk2' & Hblk2 & Hin & _).
    rewrite H1 in Hblk1. injection Hblk1 as -> <-.
    rewrite H2 in Hblk2. injection Hblk2 as -> <-.
    specialize (Hnext k b1 b2 Hb1 Hb2). rewrite Hout in Hnext.
    injection Hnext as ->. done.
Qed.

Lemma chained_config_gives_chained_network_witness :
  ∃ m σ' blk,
    xception41 1000 3 16 0%Q "avg" = Ok (m, σ') ∧
    blocks m !! 0%nat = Some ("0", blk) ∧
    XceptionModule.in_channels blk = 64.
Proof.
  assert (∃ r, xception41 1000 3 16 0%Q "avg" = Ok r) as [[m σ'] Hx].
  { vm_compute. eexists. reflexivity. }
  assert (Hch : chained (alloc xception41_dicts) 64 xception41_block_cfg = true)
    by reflexivity.
  destruct (chained_config_gives_chained_network _ _ _ _ _ _ _ _ _ _ _ _
              Hx Hch) as (_ & (blk & Hblk & Hin) & _).
  exists m, σ', blk. exact (conj Hx (conj Hblk Hin)).
Defined.

(** ** The factory *)

(** What [_xception] returns when the construction does. *)
Lemma xception_returns (variant : string) (pretrained : bool)
    (a : Factory.model_args) (σ σ' : store) (m : t)
    (cfg0 : gmap string Factory.cfg_value) :
  let u := Factory.user a in
  let features := default false (Factory.kw_features_only u) in
  features = true ∨ Factory.kw_out_indices u = None →
  init (Factory.block_cfg a) σ
    (if features then 1000 else default 1000 (Factory.kw_num_classes u))
    (default 3 (Factory.kw_in_chans u))
    (default 32 (Factory.kw_output_stride u))
    (default ReLU (Factory.kw_act_layer u))
    (default BatchNorm2d (Factory.kw_norm_layer u))
    (Factory.norm_kwargs a)
    (default 0%Q (Factory.kw_drop_rate u))
    (default "avg" (Factory.kw_global_pool u)) = Ok (m, σ') →
  Factory.default_cfgs !! variant = Some cfg0 →
  Factory._xception variant pretrained a σ =
  inr (Factory.mk_built m cfg0
         (if pretrained
          then Some (Factory.mk_load_call
                       (if features then 0
                        else default 0 (Factory.kw_num_classes u))
                       (default 3 (Factory.kw_in_chans u))
                       (negb features))
          else None)
         (if features
          then Some (default [0; 1; 2; 3; 4] (Factory.kw_out_indices u))
          else None), σ').
Proof.
  destruct a as [cfg nk [fo oi nc ic os act nrm dr gp]]. cbv zeta. simpl.
  intros Hfeat Hinit Hcfg. unfold Factory._xception. simpl.
  destruct (default false fo) eqn:Hfo; simpl.
  - unfold Factory.construct. simpl in *. rewrite Hinit, Hcfg. done.
  - destruct Hfeat as [?| ->]; [done|].
    unfold Factory.construct. simpl in *. rewrite Hinit, Hcfg. done.
Qed.

(** A construction on well-formed input, summarised (in the model, where
    every collaborator accepts its arguments). *)
Lemma init_summary (cfg : list loc) (σ : store)
    (num_classes in_chans output_stride : Z) (act_layer : act_kind)
    (norm_layer : norm_kind) (norm_kwargs : option kwargs) (drop_rate : Q)
    (global_pool : string) (b : loc) (nf : Z) :
  output_stride ∈ [8; 16; 32] →
  forallb (λ l, chs_valid (BlockCfg.out_chs (σ l))) cfg = true →
  last cfg = Some b →
  chs_last (BlockCfg.out_chs (σ b)) = Some nf →
  ∃ m σ',
    init cfg σ num_classes in_chans output_stride act_layer norm_layer
      norm_kwargs drop_rate global_pool = Ok (m, σ') ∧
    length (blocks m) = length cfg ∧
    num_features m = nf ∧
    XceptionAligned.num_classes m = num_classes ∧
    reduction <$> last (feature_info m) =
      Some (curr_stride (plan_run output_stride cfg (planner_init, σ)).1).
Proof.
  intros Hos Hall Hlast Hnf.
  pose proof (init_result cfg σ num_classes in_chans output_stride act_layer
                norm_layer norm_kwargs drop_rate global_pool) as Hres.
  cbv zeta in Hres.
  rewrite bool_decide_eq_true_2, Hall in Hres by done.
  destruct cfg as [|b0 cfg0] eqn:Hcfg; [done|]. rewrite <- Hcfg in *.
  destruct Hres as (m & σ' & Hinit). exists m, σ'. split; [done|].
  destruct (init_trace _ _ _ _ _ _ _ _ _ _ _ _ Hinit)
    as (_ & ms & es & lb & Hlen & Hblocks & _ & Hlb & Hnum & _ & Hfi & _).
  split.
  { rewrite Hblocks, length_zip_with, length_fmap, length_seq. lia. }
  split.
  { assert (Hk : cfg !! (length cfg - 1)%nat = Some b).
    { rewrite last_lookup in Hlast.
      by replace (length cfg - 1)%nat with (pred (length cfg)) by lia. }
    destruct (init_block_at _ _ _ _ _ _ _ _ _ _ _ _ _ b Hinit Hk)
      as (blk & o & o0 & o1 & o2 & Hblk & _ & _ & Hnorm & Heq).
    assert (Hlk : ms !! (length cfg - 1)%nat = Some lb).
    { rewrite last_lookup in Hlb. rewrite <- Hlen.
      by replace (length ms - 1)%nat with (pred (length ms)) by lia. }
    assert (Hblk2 : blocks m !! (length cfg - 1)%nat =
                    Some (pretty (length cfg - 1)%nat, lb)).
    { rewrite Hblocks. by apply lookup_named. }
    rewrite Hblk2 in Hblk. injection Hblk as <-.
    rewrite (normalize_chs_last _ _ _ _ Hnorm) in Hnf.
    injection Hnf as <-. rewrite Hnum, Heq. done. }
  split.
  { unfold init in Hinit.
    destruct (check _ _); [|done]. cbn [mbind result_bind] in Hinit.
    destruct (for_each _ _ _); [|done]. cbn [mbind result_bind] in Hinit.
    destruct (get_attr _); [|done]. cbn [mbind result_bind] in Hinit.
    by injection Hinit as <- _. }
  rewrite Hfi, app_comm_cons, last_snoc. done.
Qed.

(** What [_xception] returned, read backwards. *)
Lemma xception_inv (variant : string) (pretrained : bool)
    (a : Factory.model_args) (σ σ' : store) (r : Factory.built) :
  Factory._xception variant pretrained a σ = inr (r, σ') →
  let u := Factory.user a in
  let features := default false (Factory.kw_features_only u) in
  (features = true ∨ Factory.kw_out_indices u = None) ∧
  init (Factory.block_cfg a) σ
    (if features then 1000 else default 1000 (Factory.kw_num_classes u))
    (default 3 (Factory.kw_in_chans u))
    (default 32 (Factory.kw_output_stride u))
    (default ReLU (Factory.kw_act_layer u))
    (default BatchNorm2d (Factory.kw_norm_layer u))
    (Factory.norm_kwargs a)
    (default 0%Q (Factory.kw_drop_rate u))
    (default "avg" (Factory.kw_global_pool u)) = Ok (Factory.model r, σ') ∧
  Factory.default_cfgs !! variant = Some (Factory.default_cfg r) ∧
  Factory.load_pretrained r =
    (if pretrained
     then Some (Factory.mk_load_call
                  (if features then 0 else default 0 (Factory.kw_num_classes u))
                  (default 3 (Factory.kw_in_chans u))
                  (negb features))
     else None) ∧
  Factory.feature_net r =
    (if features
     then Some (default [0; 1; 2; 3; 4] (Factory.kw_out_indices u))
     else None).
Proof.
  destruct a as [cfg nk [fo oi nc ic os act nrm dr gp]]. cbv zeta. simpl.
  unfold Factory._xception. simpl.
  destruct (default false fo) eqn:Hfo; simpl; unfold Factory.construct; simpl.
  - destruct (init _ _ _ _ _ _ _ _ _ _) as [[m σ1]|e]; [|done].
    destruct (Factory.default_cfgs !! variant); [|done].
    intros [= <- <-]. simpl. repeat split; auto.
  - destruct oi as [oi|]; [done|].
    destruct (init _ _ _ _ _ _ _ _ _ _) as [[m σ1]|e]; [|done].
    destruct (Factory.default_cfgs !! variant); [|done].
    intros [= <- <-]. simpl. repeat split; auto.
Qed.

(** X14.  Whenever one of the three entry points returns a model, the
    keywords named a target [output_stride] of 8, 16 or 32 (32 when left
    out) and gave [out_indices] only together with a true [features_only];
    the network of [xception41] has 13 blocks, that of [xception65] 21 and
    that of [xception71] 23; each ends on 2048 features and on a reduction
    equal to the target, and carries the default config. *)
Theorem entry_points_build (pretrained : bool) (kwargs : Factory.user_kwargs)
    (r : Factory.built) (σ' : store) :
  (Factory.xception41 pretrained kwargs = inr (r, σ') →
   preset_facts 13 kwargs r) ∧
  (Factory.xception65 pretrained kwargs = inr (r, σ') →
   preset_facts 21 kwargs r) ∧
  (Factory.xception71 pretrained kwargs = inr (r, σ') →
   preset_facts 23 kwargs r).
Proof.
  assert (Hbuild : ∀ variant cfg dicts n b,
    Factory.default_cfgs !! variant = Some (Factory._cfg EmptyString ∅) →
    forallb (λ l, chs_valid (BlockCfg.out_chs (alloc dicts l))) cfg = true →
    last cfg = Some b →
    chs_last (BlockCfg.out_chs (alloc dicts b)) = Some 2048 →
    length cfg = n →
    (curr_stride (plan_run 8 cfg (planner_init, alloc dicts)).1 = 8 ∧
     curr_stride (plan_run 16 cfg (planner_init, alloc dicts)).1 = 16 ∧
     curr_stride (plan_run 32 cfg (planner_init, alloc dicts)).1 = 32) →
    Factory._xception variant pretrained
      (Factory.mk_model_args cfg (Some preset_norm_kwargs) kwargs)
      (alloc dicts) = inr (r, σ') →
    preset_facts n kwargs r).
  { intros variant cfg dicts n b Hcfg Hall Hlast Hnf Hlen (H8 & H16 & H32) Hret.
    apply xception_inv in Hret as (Hfeat & Hinit & Hdef & _).
    cbn [Factory.user Factory.block_cfg Factory.norm_kwargs] in *.
    pose proof Hinit as Hos. apply init_inv in Hos as [Hos _].
    edestruct (init_summary cfg (alloc dicts)) as (m0 & σ0 & Hinit0 & Hn & Hf
                                                   & _ & Hr);
      [exact Hos|exact Hall|exact Hlast|exact Hnf|].
    rewrite Hinit in Hinit0. injection Hinit0 as <- <-.
    unfold preset_facts. cbv zeta.
    split; [done|]. split; [done|]. split; [by rewrite Hn|].
    split; [done|]. split.
    - rewrite Hr. f_equal.
      repeat (apply elem_of_cons in Hos as [->|Hos]); try done.
      by apply elem_of_nil in Hos.
    - rewrite Hcfg in Hdef. by injection Hdef as <-. }
  split; [|split].
  - apply (Hbuild "xception41" xception41_block_cfg xception41_dicts 13%nat
             5%nat); try reflexivity. by vm_compute.
  - apply (Hbuild "xception65" xception65_block_cfg xception65_dicts 21%nat
             5%nat); try reflexivity. by vm_compute.
  - apply (Hbuild "xception71" xception71_block_cfg xception71_dicts 23%nat
             7%nat); try reflexivity. by vm_compute.
Qed.

Lemma entry_points_build_witness :
  ∃ r σ',
    Factory.xception41 false
      (Factory.mk_user_kwargs None None (Some 10) None (Some 16) None None
         None None) = inr (r, σ') ∧
    length (XceptionAligned.blocks (Factory.model r)) = 13%nat ∧
    reduction <$> last (XceptionAligned.feature_info (Factory.model r)) =
      Some 16.
Proof.
  assert (∃ x, Factory.xception41 false
                 (Factory.mk_user_kwargs None None (Some 10) None (Some 16)
                    None None None None) = inr x) as [[r σ'] Hret].
  { vm_compute. eexists. reflexivity. }
  destruct (proj1 (entry_points_build false _ r σ') Hret)
    as (_ & _ & Hn & _ & Hred & _).
  exists r, σ'. exact (conj Hret (conj Hn Hred)).
Defined.

Lemma init_attrs (cfg : list loc) (σ σ' : store)
    (num_classes in_chans output_stride : Z) (act_layer : act_kind)
    (norm_layer : norm_kind) (norm_kwargs : option kwargs) (drop_rate : Q)
    (global_pool : string) (m : t) :
  init cfg σ num_classes in_chans output_stride act_layer norm_layer
    norm_kwargs drop_rate global_pool = Ok (m, σ') →
  XceptionAligned.num_classes m = num_classes ∧
  XceptionAligned.drop_rate m = drop_rate ∧
  head m = ClassifierHead.init (num_features m) num_classes global_pool
             drop_rate.
Proof.
  intros Hinit. pose proof Hinit as Hinv.
  apply init_inv in Hinv as (_ & s & nf & _ & _ & _ & <- & _ & _ & Hhead).
  unfold init in Hinit.
  destruct (check _ _); [|done]. cbn [mbind result_bind] in Hinit.
  destruct (for_each _ _ _); [|done]. cbn [mbind result_bind] in Hinit.
  destruct (get_attr _); [|done]. cbn [mbind result_bind] in Hinit.
  split; [by injection Hinit as <- _|]. split; [by injection Hinit as <- _|].
  done.
Qed.

(** X15.  With a true [features_only] the [num_classes] keyword is thrown
    away: the call returns what it returns without that keyword, the
    network is built with the 1000 classes of the signature and a linear
    classifier of that width, it is wrapped for feature extraction on
    [out_indices] (0 to 4 unless given), and a pretrained load is asked for
    0 classes and is not strict. *)
Theorem features_only_discards_num_classes (variant : string)
    (pretrained : bool) (a : Factory.model_args) (σ : store) :
  Factory.kw_features_only (Factory.user a) = Some true →
  Factory._xception variant pretrained a σ =
    Factory._xception variant pretrained
      (Factory.mk_model_args (Factory.block_cfg a) (Factory.norm_kwargs a)
         (Factory.pop_num_classes (Factory.user a))) σ ∧
  ∀ r σ',
    Factory._xception variant pretrained a σ = inr (r, σ') →
    XceptionAligned.num_classes (Factory.model r) = 1000 ∧
    get_classifier (Factory.model r) =
      Linear (num_features (Factory.model r)) 1000 true ∧
    Factory.feature_net r =
      Some (default [0; 1; 2; 3; 4]
              (Factory.kw_out_indices (Factory.user a))) ∧
    Factory.load_pretrained r =
      (if pretrained
       then Some (Factory.mk_load_call 0
                    (default 3 (Factory.kw_in_chans (Factory.user a))) false)
       else None).
Proof.
  intros Hfo. split.
  - destruct a as [cfg nk [fo oi nc ic os act nrm dr gp]]. simpl in *.
    subst fo. reflexivity.
  - intros r σ' Hret.
    apply xception_inv in Hret as (_ & Hinit & _ & Hload & Hfeat).
    rewrite Hfo in *. simpl in *.
    apply init_attrs in Hinit as (Hnc & _ & Hhead).
    split; [done|]. split; [|done].
    unfold get_classifier. by rewrite Hhead.
Qed.

Lemma features_only_discards_num_classes_witness :
  Factory.xception41 true
    (Factory.mk_user_kwargs (Some true) None (Some 10) None None None None
       None None) =
  Factory.xception41 true
    (Factory.mk_user_kwargs (Some true) None None None None None None
       None None).
Proof.
  exact (proj1 (features_only_discards_num_classes "xception41" true
                  (Factory.mk_model_args xception41_block_cfg
                     (Some preset_norm_kwargs)
                     (Factory.mk_user_kwargs (Some true) None (Some 10) None
                        None None None None None))
                  (alloc xception41_dicts) eq_refl)).
Defined.

(** X16.  Without a true [features_only] the keywords go to the network as
    they are: no feature wrapper, the network has the [num_classes] given
    (1000 when left out), and a pretrained load is strict and is asked for
    the [num_classes] given, but for 0 when it was left out. *)
Theorem plain_build_keeps_keywords (variant : string) (pretrained : bool)
    (a : Factory.model_args) (σ σ' : store) (r : Factory.built) :
  default false (Factory.kw_features_only (Factory.user a)) = false →
  Factory._xception variant pretrained a σ = inr (r, σ') →
  Factory.kw_out_indices (Factory.user a) = None ∧
  Factory.feature_net r = None ∧
  XceptionAligned.num_classes (Factory.model r) =
    default 1000 (Factory.kw_num_classes (Factory.user a)) ∧
  Factory.load_pretrained r =
    (if pretrained
     then Some (Factory.mk_load_call
                  (default 0 (Factory.kw_num_classes (Factory.user a)))
                  (default 3 (Factory.kw_in_chans (Factory.user a))) true)
     else None).
Proof.
  intros Hfo Hret.
  apply xception_inv in Hret as (Hoi & Hinit & _ & Hload & Hfeat).
  cbv zeta in *. rewrite Hfo in *. simpl in *.
  destruct Hoi as [?|Hoi]; [done|].
  apply init_attrs in Hinit as (Hnc & _).
  done.
Qed.

Lemma plain_build_keeps_keywords_witness :
  ∃ r σ',
    Factory.xception41 true
      (Factory.mk_user_kwargs None None None None None None None None None)
      = inr (r, σ') ∧
    XceptionAligned.num_classes (Factory.model r) = 1000 ∧
    Factory.load_pretrained r = Some (Factory.mk_load_call 0 3 true).
Proof.
  assert (∃ x, Factory.xception41 true
                 (Factory.mk_user_kwargs None None None None None None None
                    None None) = inr x) as [[r σ'] Hret].
  { vm_compute. eexists. reflexivity. }
  destruct (plain_build_keeps_keywords "xception41" true
              (Factory.mk_model_args xception41_block_cfg
                 (Some preset_norm_kwargs)
                 (Factory.mk_user_kwargs None None None None None None None
                    None None))
              (alloc xception41_dicts) σ' r eq_refl Hret)
    as (_ & _ & Hnc & Hload).
  exists r, σ'. exact (conj Hret (conj Hnc Hload)).
Defined.

Lemma default_cfgs_keys (variant : string) :
  is_Some (Factory.default_cfgs !! variant) ↔
  variant ∈ ["xception41"; "xception65"; "xception71"].
Proof.
  unfold Factory.default_cfgs. split.
  - intros [cfg Hcfg]. apply elem_of_list_to_map_2 in Hcfg.
    apply (list_elem_of_fmap_2 fst) in Hcfg. exact Hcfg.
  - intros Hin.
    repeat (apply elem_of_cons in Hin as [->|Hin]);
      [by eexists..|by apply elem_of_nil in Hin].
Qed.

(** X17.  How [_xception] fails.  [out_indices] without a true
    [features_only] is passed on to the network, which does not take it:
    [TypeError], before anything is built.  Otherwise an exception of the
    construction comes back unchanged.  A variant without a default config
    is noticed only after the network has been built: [KeyError]; for the
    three variants of the file this never happens. *)
Theorem factory_failures (variant : string) (pretrained : bool)
    (a : Factory.model_args) (σ : store) :
  let u := Factory.user a in
  let features := default false (Factory.kw_features_only u) in
  let built :=
    init (Factory.block_cfg a) σ
      (if features then 1000 else default 1000 (Factory.kw_num_classes u))
      (default 3 (Factory.kw_in_chans u))
      (default 32 (Factory.kw_output_stride u))
      (default ReLU (Factory.kw_act_layer u))
      (default BatchNorm2d (Factory.kw_norm_layer u))
      (Factory.norm_kwargs a)
      (default 0%Q (Factory.kw_drop_rate u))
      (default "avg" (Factory.kw_global_pool u)) in
  let res := Factory._xception variant pretrained a σ in
  (features = false → is_Some (Factory.kw_out_indices u) →
   res = inl (Factory.TypeError "out_indices")) ∧
  (features = true ∨ Factory.kw_out_indices u = None →
   ∀ e, built = Raise e → res = inl (Factory.InitError e)) ∧
  (features = true ∨ Factory.kw_out_indices u = None →
   is_ok built = true →
   variant ∉ ["xception41"; "xception65"; "xception71"] →
   res = inl (Factory.KeyError variant)) ∧
  (variant ∈ ["xception41"; "xception65"; "xception71"] →
   ∀ key, res ≠ inl (Factory.KeyError key)).
Proof.
  destruct a as [cfg nk [fo oi nc ic os act nrm dr gp]]. cbv zeta. simpl.
  unfold Factory._xception. simpl.
  split; [|split; [|split]].
  - intros Hfo [x ->]. rewrite Hfo. done.
  - intros Hfeat e Hraise.
    destruct (default false fo) eqn:Hfo; simpl; unfold Factory.construct; simpl.
    + by rewrite Hraise.
    + destruct Hfeat as [?| ->]; [done|]. by rewrite Hraise.
  - intros Hfeat Hok Hvar.
    assert (Hnone : Factory.default_cfgs !! variant = None).
    { apply eq_None_not_Some. by rewrite default_cfgs_keys. }
    destruct (default false fo) eqn:Hfo; simpl; unfold Factory.construct; simpl.
    + destruct (init _ _ _ _ _ _ _ _ _ _) as [[m σ1]|e]; [|done].
      by rewrite Hnone.
    + destruct Hfeat as [?| ->]; [done|].
      destruct (init _ _ _ _ _ _ _ _ _ _) as [[m σ1]|e]; [|done].
      by rewrite Hnone.
  - intros Hvar key.
    apply default_cfgs_keys in Hvar as [cfg0 Hcfg0].
    destruct (default false fo) eqn:Hfo; simpl; unfold Factory.construct; simpl.
    + destruct (init _ _ _ _ _ _ _ _ _ _) as [[m σ1]|e]; [|done].
      by rewrite Hcfg0.
    + destruct oi; [done|].
      destruct (init _ _ _ _ _ _ _ _ _ _) as [[m σ1]|e]; [|done].
      by rewrite Hcfg0.
Qed.

Lemma factory_failures_witness :
  Factory.xception41 false
    (Factory.mk_user_kwargs None (Some [1; 2]) None None None None None None
       None) = inl (Factory.TypeError "out_indices").
Proof.
  exact (proj1 (factory_failures "xception41" false
                  (Factory.mk_model_args xception41_block_cfg
                     (Some preset_norm_kwargs)
                     (Factory.mk_user_kwargs None (Some [1; 2]) None None None
                        None None None None))
                  (alloc xception41_dicts))
           eq_refl (ex_intro _ [1; 2] eq_refl)).
Defined.

(** ** Building twice *)

(** X3.  Building a second network from the dicts a first build has
    written to, with the same [output_stride] and no dict listed twice: the
    strides the first build absorbed now read 1, so the second build
    absorbs nothing.  It ends on the same reduction, but every unit of
    every block has dilation 1, whatever dilation the first network had. *)
Theorem second_build_has_no_dilation (cfg : list loc) (σ σ1 σ2 : store)
    (output_stride : Z)
    (num_classes1 in_chans1 : Z) (act_layer1 : act_kind)
    (norm_layer1 : norm_kind) (norm_kwargs1 : option kwargs) (drop_rate1 : Q)
    (global_pool1 : string) (m1 : t)
    (num_classes2 in_chans2 : Z) (act_layer2 : act_kind)
    (norm_layer2 : norm_kind) (norm_kwargs2 : option kwargs) (drop_rate2 : Q)
    (global_pool2 : string) (m2 : t) :
  NoDup cfg →
  init cfg σ num_classes1 in_chans1 output_stride act_layer1 norm_layer1
    norm_kwargs1 drop_rate1 global_pool1 = Ok (m1, σ1) →
  init cfg σ1 num_classes2 in_chans2 output_stride act_layer2 norm_layer2
    norm_kwargs2 drop_rate2 global_pool2 = Ok (m2, σ2) →
  reduction <$> last (feature_info m2) = reduction <$> last (feature_info m1) ∧
  ∀ k name blk, blocks m2 !! k = Some (name, blk) →
                unit_dilations blk = [1; 1; 1].
Proof.
  intros Hnd Hinit1 Hinit2.
  destruct (init_planner _ _ _ _ _ _ _ _ _ _ _ _ Hinit1) as (Hσ1 & e1 & Hfi1).
  destruct (init_planner _ _ _ _ _ _ _ _ _ _ _ _ Hinit2) as (_ & e2 & Hfi2).
  destruct (second_plan_has_no_dilation output_stride cfg σ Hnd) as [Hs Hd].
  cbv zeta in Hs, Hd. rewrite <- Hσ1 in Hs, Hd.
  split.
  - rewrite Hfi1, Hfi2, !last_snoc. simpl. by rewrite Hs.
  - intros k name blk Hblk.
    assert (Hlt : (k < length cfg)%nat).
    { apply lookup_lt_Some in Hblk.
      destruct (init_trace _ _ _ _ _ _ _ _ _ _ _ _ Hinit2)
        as (_ & ms & es & lb & Hlen & Hblocks & _).
      rewrite Hblocks, length_zip_with, length_fmap, length_seq in Hblk. lia. }
    destruct (lookup_lt_is_Some_2 cfg k Hlt) as [b Hb].
    destruct (init_block_at _ _ _ _ _ _ _ _ _ _ _ _ k b Hinit2 Hb)
      as (blk' & o & o0 & o1 & o2 & Hblk' & _ & _ & _ & Heq).
    rewrite Hblk in Hblk'. injection Hblk' as -> ->. rewrite Heq.
    match goal with
    | |- context [built_module ?a ?b ?c ?d ?e ?f ?g ?h ?i ?j ?k ?l] =>
        destruct (built_module_units a b c d e f g h i j k l) as (_ & -> & _)
    end.
    assert (Hone : curr_dilation
                     (plan_run output_stride (take k cfg) (planner_init, σ1)).1
                   = 1).
    { pose proof (plan_run_positive output_stride (take k cfg)
                    (planner_init, σ1)) as Hpos.
      destruct Hpos as [Hs' Hd']; [simpl; lia..|].
      pose proof (plan_run_dilation_le output_stride (drop k cfg) _ Hs' Hd')
        as Hle.
      rewrite <- plan_run_app, take_drop, Hd in Hle. lia. }
    by rewrite Hone.
Qed.

Lemma second_build_has_no_dilation_witness :
  let cfg := [0; 1; 2; 3; 4; 5]%nat in
  ∃ m1 σ1 m2 σ2 b1 b2,
    init cfg (alloc xception41_dicts) 1000 3 8 ReLU BatchNorm2d None 0%Q "avg"
      = Ok (m1, σ1) ∧
    init cfg σ1 1000 3 8 ReLU BatchNorm2d None 0%Q "avg" = Ok (m2, σ2) ∧
    blocks m1 !! 5%nat = Some ("5", b1) ∧ unit_dilations b1 = [4; 4; 4] ∧
    blocks m2 !! 5%nat = Some ("5", b2) ∧ unit_dilations b2 = [1; 1; 1].
Proof.
  intros cfg.
  assert (Hnd : NoDup cfg) by (by apply (bool_decide_unpack _)).
  assert (∃ r1 r2 b1 b2,
            init cfg (alloc xception41_dicts) 1000 3 8 ReLU BatchNorm2d None
              0%Q "avg" = Ok r1 ∧
            init cfg r1.2 1000 3 8 ReLU BatchNorm2d None 0%Q "avg" = Ok r2 ∧
            blocks r1.1 !! 5%nat = Some ("5", b1) ∧
            unit_dilations b1 = [4; 4; 4] ∧
            blocks r2.1 !! 5%nat = Some ("5", b2))
    as ([m1 σ1] & [m2 σ2] & b1 & b2 & H1 & H2 & Hb1 & Hd1 & Hb2).
  { vm_compute. eexists (_, _), (_, _), _, _. repeat split; reflexivity. }
  simpl in H2, Hb1, Hb2.
  exists m1, σ1, m2, σ2, b1, b2.
  pose proof (proj2 (second_build_has_no_dilation cfg _ _ _ 8 _ _ _ _ _ _ _ _
                       _ _ _ _ _ _ _ _ Hnd H1 H2) 5%nat "5" b2 Hb2) as Hd2.
  exact (conj H1 (conj H2 (conj Hb1 (conj Hd1 (conj Hb2 Hd2))))).
Defined.
